(** * Helpdesk ticket triage (app.py): a shallow embedding and its properties

    The rule-based classifier, the advisor (suggested steps and escalation
    flag) and the orchestrator of [app.py] are embedded as Rocq functions.

    Representation choices.
    - A Python [str] is a Rocq [string] holding its UTF-8 encoding.  All
      keywords of the program are ASCII, and concatenation and substring
      containment commute with UTF-8 encoding.
    - Python builtins that need the Unicode character database ([str.lower],
      [str.title], [str.strip]) are computed by the model on ASCII-only text;
      on other text they are given by parameters ([unicode_lower], ...).
    - A Python [dict] is an association list in insertion order, because
      [max] over a dict depends on the order of iteration.
    - An operation that may raise returns a value of [exc]. *)

From Stdlib Require Import String Ascii List Bool Arith Lia ZArith SpecFloat.
Import ListNotations.
Open Scope list_scope.
Open Scope string_scope.

(** ** Exceptions *)

Inductive exn : Type :=
| ValueError
| KeyError
| TypeError
| AttributeError
| JSONDecodeError
| ClientError.

Inductive exc (A : Type) : Type :=
| Ok (a : A)
| Raise (e : exn).

Arguments Ok {A} a.
Arguments Raise {A} e.

Definition bind {A B : Type} (m : exc A) (k : A -> exc B) : exc B :=
  match m with
  | Ok a => k a
  | Raise e => Raise e
  end.

Notation "x <- m ;; k" := (bind m (fun x => k))
  (at level 61, m at next level, right associativity).

(** [try: body except Exception: handler] *)
Definition try_except {A : Type} (body : exc A) (handler : exc A) : exc A :=
  match body with
  | Ok a => Ok a
  | Raise _ => handler
  end.

(** ** The Python builtins used by the program *)

Module Py.

Definition nl : string := String (ascii_of_nat 10) "".
Definition dquote : string := String (ascii_of_nat 34) "".

(** *** Strings *)

Definition ascii_char (c : ascii) : bool := (nat_of_ascii c <? 128)%nat.

Fixpoint is_ascii (s : string) : bool :=
  match s with
  | EmptyString => true
  | String c s' => ascii_char c && is_ascii s'
  end.

Definition is_upper (c : ascii) : bool :=
  ((65 <=? nat_of_ascii c) && (nat_of_ascii c <=? 90))%nat.

Definition is_lower (c : ascii) : bool :=
  ((97 <=? nat_of_ascii c) && (nat_of_ascii c <=? 122))%nat.

Definition to_lower (c : ascii) : ascii :=
  if is_upper c then ascii_of_nat (nat_of_ascii c + 32) else c.

Definition to_upper (c : ascii) : ascii :=
  if is_lower c then ascii_of_nat (nat_of_ascii c - 32) else c.

Fixpoint map_chars (f : ascii -> ascii) (s : string) : string :=
  match s with
  | EmptyString => EmptyString
  | String c s' => String (f c) (map_chars f s')
  end.

(** [s.title()] on ASCII text: the first letter of every run of letters is
    upper-cased, the others are lower-cased. *)
Fixpoint ascii_title (previous_is_cased : bool) (s : string) : string :=
  match s with
  | EmptyString => EmptyString
  | String c s' =>
      String (if previous_is_cased then to_lower c else to_upper c)
             (ascii_title (is_upper c || is_lower c) s')
  end.

(** Whitespace of [str.strip()] among the ASCII characters:
    TAB, LF, VT, FF, CR, FS, GS, RS, US and SPACE. *)
Definition ascii_space (c : ascii) : bool :=
  let n := nat_of_ascii c in
  (((9 <=? n) && (n <=? 13)) || ((28 <=? n) && (n <=? 32)))%nat.

Fixpoint lstrip (s : string) : string :=
  match s with
  | EmptyString => EmptyString
  | String c s' => if ascii_space c then lstrip s' else s
  end.

Fixpoint rstrip (s : string) : string :=
  match s with
  | EmptyString => EmptyString
  | String c s' =>
      match rstrip s' with
      | EmptyString => if ascii_space c then EmptyString else String c EmptyString
      | r => String c r
      end
  end.

Section Unicode.

(** The three case and whitespace operations on text that is not
    ASCII-only, as the Unicode character database defines them. *)
Variable unicode_lower : string -> string.
Variable unicode_title : string -> string.
Variable unicode_strip : string -> string.

(** [s.lower()] *)
Definition lower (s : string) : string :=
  if is_ascii s then map_chars to_lower s else unicode_lower s.

(** [s.title()] *)
Definition title (s : string) : string :=
  if is_ascii s then ascii_title false s else unicode_title s.

(** [s.strip()] *)
Definition strip (s : string) : string :=
  if is_ascii s then rstrip (lstrip s) else unicode_strip s.

End Unicode.

(** [w in t] on strings: [w] occurs in [t] as a contiguous substring. *)
Fixpoint str_in (w t : string) : bool :=
  if String.prefix w t then true
  else match t with
       | EmptyString => false
       | String _ t' => str_in w t'
       end.

(** [s.replace(old, new)]: every non-overlapping occurrence of [old], found
    from the left, is replaced.  [skip] counts the characters of the current
    occurrence that are still to be dropped. *)
Fixpoint replace_from (old new : string) (skip : nat) (s : string) : string :=
  match s with
  | EmptyString => EmptyString
  | String c s' =>
      match skip with
      | S k => replace_from old new k s'
      | O =>
          if String.prefix old s
          then new ++ replace_from old new (String.length old - 1) s'
          else String c (replace_from old new 0 s')
      end
  end.

Fixpoint intersperse (new : string) (s : string) : string :=
  match s with
  | EmptyString => new
  | String c s' => new ++ String c (intersperse new s')
  end.

Definition replace (old new s : string) : string :=
  match old with
  | EmptyString => intersperse new s
  | _ => replace_from old new 0 s
  end.

(** The characters of a [str]: a byte of the form 10xxxxxx continues the
    character of the byte before it. *)
Definition continuation (c : ascii) : bool :=
  ((128 <=? nat_of_ascii c) && (nat_of_ascii c <? 192))%nat.

Definition continues (s : string) : bool :=
  match s with
  | EmptyString => false
  | String c _ => continuation c
  end.

Fixpoint chars (s : string) : list string :=
  match s with
  | EmptyString => []
  | String c s' =>
      match chars s' with
      | p :: ps =>
          if continues s' then String c p :: ps
          else String c EmptyString :: p :: ps
      | [] => [String c EmptyString]
      end
  end.

(** [x in l] on a list of strings *)
Definition list_in (x : string) (l : list string) : bool :=
  existsb (String.eqb x) l.

(** [any(...)] and [sum(...)] *)
Definition any (l : list bool) : bool := existsb (fun b => b) l.
Definition sum (l : list nat) : nat := fold_left Nat.add l 0.

(** *** Dictionaries *)

Definition dict (V : Type) : Type := list (string * V).

Definition keys {V : Type} (d : dict V) : list string := map fst d.
Definition values {V : Type} (d : dict V) : list V := map snd d.

(** [d.get(k)] *)
Fixpoint get {V : Type} (d : dict V) (k : string) : option V :=
  match d with
  | [] => None
  | (k', v) :: d' => if String.eqb k k' then Some v else get d' k
  end.

(** [d.get(k, default)] *)
Definition get_default {V : Type} (d : dict V) (k : string) (default : V) : V :=
  match get d k with
  | Some v => v
  | None => default
  end.

(** [d[k]] *)
Definition item {V : Type} (d : dict V) (k : string) : exc V :=
  match get d k with
  | Some v => Ok v
  | None => Raise KeyError
  end.

(** [d[k] = v]: an existing key keeps its place, a new key goes last. *)
Fixpoint set {V : Type} (d : dict V) (k : string) (v : V) : dict V :=
  match d with
  | [] => [(k, v)]
  | (k', v') :: d' =>
      if String.eqb k k' then (k', v) :: d' else (k', v') :: set d' k v
  end.

(** *** [max]

    [max] goes through its argument from the left and replaces the current
    best only by a strictly greater element, so that the first of several
    maximal elements is returned; it raises [ValueError] on an empty
    argument. *)
Fixpoint max_from {A : Type} (key : A -> nat) (best : A) (l : list A) : A :=
  match l with
  | [] => best
  | x :: l' => if (key best <? key x)%nat then max_from key x l' else max_from key best l'
  end.

Definition max_by {A : Type} (key : A -> nat) (l : list A) : exc A :=
  match l with
  | [] => Raise ValueError
  | x :: l' => Ok (max_from key x l')
  end.

(** [max(l)] on numbers *)
Definition max (l : list nat) : exc nat := max_by (fun n => n) l.

(** [max(d, key=d.get)] on a dictionary of numbers: the keys are compared
    by the numbers stored under them, and [d.get(k)] of a key [k] of [d] is
    the number of its entry (see [max_key_by_get]). *)
Definition max_key (d : dict nat) : exc string :=
  entry <- max_by snd d ;; Ok (fst entry).

End Py.

(** ** Values decoded by [json.loads] *)

#[local] Set Warnings "-register-all".

Inductive json : Type :=
| JNull
| JBool (b : bool)
| JInt (n : Z)
| JFloat (x : spec_float)
| JStr (s : string)
| JList (l : list json)
| JDict (d : list (string * json)).

(** [bool(v)] *)
Definition truth (v : json) : bool :=
  match v with
  | JNull => false
  | JBool b => b
  | JInt n => negb (Z.eqb n 0)
  | JFloat (S754_zero _) => false
  | JFloat _ => true
  | JStr s => negb (String.eqb s "")
  | JList l => negb (Nat.eqb (List.length l) 0)
  | JDict d => negb (Nat.eqb (List.length d) 0)
  end.

(** [for s in v]: the elements of a list, the characters of a string, the
    keys of a dict; anything else is not iterable. *)
Definition iter (v : json) : exc (list json) :=
  match v with
  | JList l => Ok l
  | JStr s => Ok (map JStr (Py.chars s))
  | JDict d => Ok (map JStr (Py.keys d))
  | _ => Raise TypeError
  end.

(** [data.get]: only a dict has the method. *)
Definition as_dict (v : json) : exc (Py.dict json) :=
  match v with
  | JDict d => Ok d
  | _ => Raise AttributeError
  end.

(** ** The result of an analysis

    The dict with the keys [category], [steps], [escalate] and [summary];
    [extra] holds the other keys that a reply of the language model may
    carry. *)
Record AnalysisResult : Type := {
  category : string;
  steps : list string;
  escalate : bool;
  summary : string;
  extra : Py.dict json
}.

(** ** The tables *)

Definition KEYWORDS : Py.dict (list string) := [
  ("network", ["wifi"; "wi-fi"; "ethernet"; "latency"; "vpn"; "proxy"; "dns"; "network"]);
  ("hardware", ["laptop"; "keyboard"; "mouse"; "monitor"; "battery"; "charger"; "power"; "fan"; "overheating"]);
  ("software", ["update"; "install"; "error"; "bug"; "crash"; "app"; "software"; "driver"; "patch"]);
  ("account", ["login"; "locked"; "password"; "mfa"; "2fa"; "permission"; "access"; "account"])
].

Definition SUGGESTIONS : Py.dict (list string) := [
  ("network", [
    "Toggle Wi‑Fi adapter off/on";
    "Forget & re‑add the SSID";
    "Run ipconfig /flushdns (Windows) or dscacheutil -flushcache (macOS)";
    "Test with Ethernet or mobile hotspot";
    "Check VPN/Proxy settings"
  ]);
  ("hardware", [
    "Power cycle device";
    "Check cables/ports";
    "Run Device Manager/Drivers health check";
    "Run OEM diagnostics";
    "Open a replacement request if persistent"
  ]);
  ("software", [
    "Reboot and retry";
    "Clear cache/temp files";
    "Reinstall or rollback latest update";
    "Check logs for recent errors";
    "Open vendor ticket if reproducible"
  ]);
  ("account", [
    "Attempt self‑service password reset";
    "Verify MFA device/time sync";
    "Check group/role permissions";
    "Escalate to IAM if blocked";
    "Security check for suspicious activity"
  ])
].

(** ** The program *)

Module App.

Section Program.

(** The Python runtime and the outside world. *)
Variable unicode_lower : string -> string.
Variable unicode_title : string -> string.
Variable unicode_strip : string -> string.

(** [str(v)] of a decoded value that is not itself a string. *)
Variable repr : json -> string.

(** [json.loads]; it raises on text that is not JSON. *)
Variable json_loads : string -> exc json.

(** [client.chat.completions.create(...)] followed by
    [.choices[0].message.content]: the text of the reply to a prompt.
    A failure of the call, and a reply without text, is an exception. *)
Variable chat_completion : string -> exc string.

(** The module's global flag: an API key is set and the client library
    could be loaded. *)
Variable use_llm : bool.

Local Abbreviation lower := (Py.lower unicode_lower).
Local Abbreviation title := (Py.title unicode_title).
Local Abbreviation strip := (Py.strip unicode_strip).

(** [str(v)] *)
Definition str (v : json) : string :=
  match v with
  | JStr s => s
  | _ => repr v
  end.

(** The dict [scores] of [rule_based_classify] when the loop has ended. *)
Definition scores_of (t : string) : Py.dict nat :=
  let scores := map (fun k => (k, 0)) (Py.keys KEYWORDS) in
  fold_left
    (fun scores '(label, words) =>
       Py.set scores label
         (Py.sum (map (fun _ => 1) (filter (fun w => Py.str_in w t) words))))
    KEYWORDS scores.

Definition rule_based_classify (text : string) : exc string :=
  let t := lower text in
  let scores := scores_of t in
  m <- Py.max (Py.values scores) ;;
  if (0 <? m)%nat then Py.max_key scores else Ok "software".

Definition rule_based_steps (category : string) : exc (list string) :=
  default <- Py.item SUGGESTIONS "software" ;;
  Ok (Py.get_default SUGGESTIONS category default).

Definition red_flags : list string :=
  ["data loss"; "smoke"; "burning"; "security"; "breach"; "ransom";
   "admin down"; "outage"].

Definition persistence_words : list string :=
  ["still"; "again"; "week"; "days"; "months"].

(** The value of the local variable [persistent]. *)
Definition persistent_of (text : string) : bool :=
  Py.any (map (fun p => Py.str_in p (lower text)) persistence_words).

Definition rule_based_escalation (text category : string) : bool :=
  let long_wait := Py.any (map (fun p => Py.str_in p (lower text)) red_flags) in
  let persistent := persistent_of text in
  long_wait || Py.list_in category ["hardware"; "account"].

Definition prompt_of (subject body : string) : string :=
  let content := "Subject: " ++ subject ++ Py.nl ++ "Body: " ++ body ++ Py.nl in
  Py.nl
  ++ "You are an IT helpdesk assistant. Classify the ticket into one of:" ++ Py.nl
  ++ "- network, hardware, software, account" ++ Py.nl
  ++ Py.nl
  ++ "Then propose 4-6 concrete next steps, and say whether to escalate (true/false) with a one-sentence reason." ++ Py.nl
  ++ "Return STRICT JSON with keys: category, steps, escalate, summary." ++ Py.nl
  ++ "Text to analyze:" ++ Py.nl
  ++ Py.dquote ++ Py.dquote ++ Py.dquote ++ Py.nl ++ content ++ Py.nl
  ++ Py.dquote ++ Py.dquote ++ Py.dquote ++ Py.nl
  ++ "JSON only:" ++ Py.nl.

(** The text handed to [json.loads]. *)
Definition unfenced (content : string) : string :=
  let raw := strip content in
  strip (Py.replace "```" "" (Py.replace "```json" "" raw)).

Definition result_keys : list string :=
  ["category"; "steps"; "escalate"; "summary"].

(** The body of the [try] of [llm_analyze]. *)
Definition llm_request (subject body : string) : exc AnalysisResult :=
  content <- chat_completion (prompt_of subject body) ;;
  data <- json_loads (unfenced content) ;;
  data <- as_dict data ;;
  let category := lower (str (Py.get_default data "category" (JStr "software"))) in
  items <- iter (Py.get_default data "steps" (JList [])) ;;
  let steps := firstn 8 (map str items) in
  let escalate := truth (Py.get_default data "escalate" (JBool false)) in
  let summary := strip (str (Py.get_default data "summary" (JStr ""))) in
  Ok {| category := category;
        steps := steps;
        escalate := escalate;
        summary := summary;
        extra := filter (fun kv => negb (Py.list_in (fst kv) result_keys)) data |}.

(** The [except] branch of [llm_analyze]. *)
Definition llm_fallback (subject body : string) : exc AnalysisResult :=
  category <- rule_based_classify (subject ++ " " ++ body) ;;
  steps <- rule_based_steps category ;;
  Ok {| category := category;
        steps := steps;
        escalate := rule_based_escalation (subject ++ " " ++ body) category;
        summary := title category
                   ++ " issue detected. Suggested standard troubleshooting steps applied.";
        extra := [] |}.

Definition llm_analyze (subject body : string) : exc AnalysisResult :=
  try_except (llm_request subject body) (llm_fallback subject body).

(** The rule-based path of [analyze_ticket]. *)
Definition baseline (subject body : string) : exc AnalysisResult :=
  category <- rule_based_classify (subject ++ " " ++ body) ;;
  steps <- rule_based_steps category ;;
  Ok {| category := category;
        steps := steps;
        escalate := rule_based_escalation (subject ++ " " ++ body) category;
        summary := title category
                   ++ " issue. Applying baseline playbook. Escalate if unresolved.";
        extra := [] |}.

Definition analyze_ticket (subject body : string) : exc AnalysisResult :=
  if use_llm then llm_analyze subject body else baseline subject body.

End Program.

End App.

(** ** The single-ticket form

    The button handler of the "Single Ticket" tab: an empty form is answered
    by a warning, and only a form with some text reaches [analyze_ticket]. *)

Inductive form_outcome : Type :=
| Warning (message : string)
| Result (result : exc AnalysisResult).

Definition on_analyze
    (analyze : string -> string -> exc AnalysisResult)
    (subject body : string) : form_outcome :=
  if String.eqb subject "" && String.eqb body ""
  then Warning "Please enter a subject or description."
  else Result (analyze subject body).

(** ** Vocabulary of the statements *)

(** [w] occurs in [t] as a contiguous substring. *)
Definition occurs (w t : string) : Prop :=
  exists before after, t = before ++ w ++ after.

(** The categories, in the order in which [KEYWORDS] lists them. *)
Definition categories : list string := Py.keys KEYWORDS.

(** The trigger words of a category. *)
Definition triggers (c : string) : list string := Py.get_default KEYWORDS c [].

(** The trigger words of category [c] that occur in the text [t], and
    their number. *)
Definition found_triggers (t c : string) : list string :=
  filter (fun w => Py.str_in w t) (triggers c).

Definition trigger_count (t c : string) : nat :=
  List.length (found_triggers t c).

(** No trigger word of any category occurs in [t] (decidable form). *)
Definition no_trigger (t : string) : bool :=
  forallb (fun c => forallb (fun w => negb (Py.str_in w t)) (triggers c)) categories.

(** No trigger word of a category other than [c] occurs in [t] (decidable
    form). *)
Definition no_other_trigger (t c : string) : bool :=
  forallb (fun c' => String.eqb c' c
                     || forallb (fun w => negb (Py.str_in w t)) (triggers c'))
          categories.

(** The dict that stores [f k] under every key [k] of the list [l]. *)
Definition graph (f : string -> nat) (l : list string) : Py.dict nat :=
  map (fun k => (k, f k)) l.

(** An environment without Unicode case tables and without a reachable
    language model, for evaluating the program on ASCII tickets. *)
Module Offline.

Definition unicode_lower (s : string) : string := s.
Definition unicode_title (s : string) : string := s.
Definition unicode_strip (s : string) : string := s.
Definition repr (v : json) : string := "".
Definition json_loads (s : string) : exc json := Raise JSONDecodeError.
Definition chat_completion (prompt : string) : exc string := Raise ClientError.

(** A language model that answers with prose instead of JSON. *)
Definition chatty (prompt : string) : exc string := Ok "Sorry, I cannot help.".

End Offline.

(** ** Vocabulary of the further statements *)

Definition backtick : ascii := ascii_of_nat 96.

(** The number of backticks at the head of [s]. *)
Fixpoint ticks (s : string) : nat :=
  match s with
  | EmptyString => 0
  | String c s' => if Ascii.eqb c backtick then S (ticks s') else 0
  end.

(** No backtick in [s]. *)
Fixpoint tick_free (s : string) : bool :=
  match s with
  | EmptyString => true
  | String c s' => negb (Ascii.eqb c backtick) && tick_free s'
  end.

(** [s] consists of ASCII whitespace only. *)
Fixpoint blank (s : string) : bool :=
  match s with
  | EmptyString => true
  | String c s' => Py.ascii_space c && blank s'
  end.

(** No space character in [w]. *)
Fixpoint space_free (w : string) : bool :=
  match w with
  | EmptyString => true
  | String c w' => negb (Ascii.eqb c " ") && space_free w'
  end.

(** A text as the language model may fence it: the payload between
    [```json] and [```], with whitespace around it. *)
Definition fenced (before payload after : string) : string :=
  "```json" ++ before ++ payload ++ after ++ "```".

(** The four sentences of the rule-based path. *)
Definition baseline_summaries : list (string * string) := [
  ("network", "Network issue. Applying baseline playbook. Escalate if unresolved.");
  ("hardware", "Hardware issue. Applying baseline playbook. Escalate if unresolved.");
  ("software", "Software issue. Applying baseline playbook. Escalate if unresolved.");
  ("account", "Account issue. Applying baseline playbook. Escalate if unresolved.")
].

(** * Properties *)

(** ** Strings *)

Lemma prefix_iff (w t : string) :
  String.prefix w t = true <-> exists after, t = w ++ after.
Proof.
  revert t; induction w as [|a w IH]; intros t.
  - destruct t; simpl; split; eauto.
  - destruct t as [|b t]; simpl.
    + split; [discriminate | intros [x Hx]; discriminate].
    + destruct (Ascii.ascii_dec a b) as [->|Hab].
      * rewrite IH. split; intros [x Hx]; exists x; [now rewrite Hx | now inversion Hx].
      * split; [discriminate | intros [x Hx]; congruence].
Qed.

Lemma str_in_unfold (w t : string) :
  Py.str_in w t
  = if String.prefix w t then true
    else match t with
         | EmptyString => false
         | String _ t' => Py.str_in w t'
         end.
Proof. destruct t; reflexivity. Qed.

Lemma str_in_occurs (w t : string) : Py.str_in w t = true <-> occurs w t.
Proof.
  unfold occurs. induction t as [|c t IH]; rewrite str_in_unfold.
  - destruct (String.prefix w "") eqn:Hp.
    + split; [intros _ | reflexivity].
      apply prefix_iff in Hp as [x Hx]. exists "", x. exact Hx.
    + split; [discriminate|]. intros (a & b & Hab).
      destruct a; [|discriminate]. simpl in Hab.
      assert (String.prefix w "" = true) by (apply prefix_iff; eauto). congruence.
  - destruct (String.prefix w (String c t)) eqn:Hp.
    + split; [intros _ | reflexivity].
      apply prefix_iff in Hp as [x Hx]. exists "", x. exact Hx.
    + rewrite IH. split.
      * intros (a & b & Hab). exists (String c a), b. simpl. now rewrite Hab.
      * intros (a & b & Hab). destruct a as [|c' a].
        -- simpl in Hab.
           assert (String.prefix w (String c t) = true) by (apply prefix_iff; eauto).
           congruence.
        -- simpl in Hab. inversion Hab. eauto.
Qed.

Lemma str_in_false (w t : string) : Py.str_in w t = false <-> ~ occurs w t.
Proof.
  rewrite <- str_in_occurs. destruct (Py.str_in w t); split; congruence.
Qed.

Lemma to_lower_ascii (c : ascii) :
  Py.ascii_char c = true -> Py.ascii_char (Py.to_lower c) = true.
Proof.
  destruct c as [[] [] [] [] [] [] [] []]; vm_compute; congruence.
Qed.

Lemma to_lower_idempotent (c : ascii) : Py.to_lower (Py.to_lower c) = Py.to_lower c.
Proof.
  destruct c as [[] [] [] [] [] [] [] []]; reflexivity.
Qed.

Lemma map_to_lower_ascii (s : string) :
  Py.is_ascii s = true -> Py.is_ascii (Py.map_chars Py.to_lower s) = true.
Proof.
  induction s as [|c s IH]; simpl; auto.
  rewrite !andb_true_iff. intros [Hc Hs]. auto using to_lower_ascii.
Qed.

Lemma map_to_lower_idempotent (s : string) :
  Py.map_chars Py.to_lower (Py.map_chars Py.to_lower s) = Py.map_chars Py.to_lower s.
Proof.
  induction s as [|c s IH]; simpl; [reflexivity|].
  now rewrite to_lower_idempotent, IH.
Qed.

(** On ASCII text [lower] is idempotent, whatever the Unicode tables are. *)
Lemma lower_ascii_idempotent (unicode_lower : string -> string) (s : string) :
  Py.is_ascii s = true ->
  Py.lower unicode_lower (Py.lower unicode_lower s) = Py.lower unicode_lower s.
Proof.
  intros Hs. unfold Py.lower. rewrite Hs, (map_to_lower_ascii s Hs).
  apply map_to_lower_idempotent.
Qed.

Lemma offline_lower_idempotent (s : string) :
  Py.lower Offline.unicode_lower (Py.lower Offline.unicode_lower s)
  = Py.lower Offline.unicode_lower s.
Proof.
  destruct (Py.is_ascii s) eqn:Hs.
  - now apply lower_ascii_idempotent.
  - unfold Py.lower, Offline.unicode_lower. now rewrite !Hs.
Qed.

(** ** [sum], [max] and dictionaries *)

Lemma fold_add_ones {A : Type} (l : list A) (n : nat) :
  fold_left Nat.add (map (fun _ => 1) l) n = n + List.length l.
Proof.
  revert n; induction l as [|x l IH]; intros n; simpl.
  - lia.
  - rewrite IH. lia.
Qed.

Lemma sum_ones {A : Type} (l : list A) :
  Py.sum (map (fun _ => 1) l) = List.length l.
Proof. unfold Py.sum. now rewrite fold_add_ones. Qed.

(** [d.get(k)] of an entry [(k, v)] of a dict is [v]. *)
Lemma get_entry {V : Type} (d : Py.dict V) (k : string) (v : V) :
  NoDup (Py.keys d) -> In (k, v) d -> Py.get d k = Some v.
Proof.
  induction d as [|[k' v'] d IH]; simpl; [tauto|].
  intros Hnd [Heq|Hin].
  - inversion Heq; subst. now rewrite String.eqb_refl.
  - inversion Hnd as [|? ? Hnotin Hnd']; subst.
    destruct (String.eqb_spec k k') as [->|Hne].
    + exfalso. apply Hnotin. change k' with (fst (k', v)). now apply in_map.
    + auto.
Qed.

(** [max_from] returns the first element, from the left, whose key is
    maximal: the elements before it have a strictly smaller key. *)
Lemma max_from_first {A : Type} (key : A -> nat) (l : list A) :
  forall (before : list A) (best : A) (skipped : list A),
    Forall (fun x => key x < key best) before ->
    Forall (fun x => key x <= key best) skipped ->
    exists pre post,
      (before ++ best :: skipped ++ l)%list
      = (pre ++ Py.max_from key best l :: post)%list
      /\ Forall (fun x => key x < key (Py.max_from key best l)) pre
      /\ Forall (fun x => key x <= key (Py.max_from key best l)) post.
Proof.
  induction l as [|x l IH]; intros before best skipped Hb Hs; simpl.
  - exists before, skipped. now rewrite app_nil_r.
  - destruct (Nat.ltb_spec (key best) (key x)) as [Hlt|Hge].
    + destruct (IH (before ++ best :: skipped)%list x []) as (pre & post & Heq & Hpre & Hpost).
      * apply Forall_app; split.
        -- eapply Forall_impl; [|exact Hb]. simpl; intros; lia.
        -- constructor; [exact Hlt|].
           eapply Forall_impl; [|exact Hs]. simpl; intros; lia.
      * constructor.
      * exists pre, post. repeat split; auto.
        rewrite <- Heq. simpl. now rewrite <- !app_assoc.
    + destruct (IH before best (skipped ++ [x])%list Hb) as (pre & post & Heq & Hpre & Hpost).
      * apply Forall_app; split; [exact Hs|]. constructor; [exact Hge|constructor].
      * exists pre, post. repeat split; auto.
        rewrite <- Heq. now rewrite <- app_assoc.
Qed.

(** [max(d, key=d.get)] seen as a [max] over the keys of [d]. *)
Lemma max_from_by_get (d : Py.dict nat) (l : Py.dict nat) :
  forall e : string * nat,
    (forall x, In x (e :: l) -> Py.get d (fst x) = Some (snd x)) ->
    fst (Py.max_from snd e l)
    = Py.max_from (fun k => Py.get_default d k 0) (fst e) (Py.keys l).
Proof.
  induction l as [|x l IH]; intros e Hget; [reflexivity|].
  cbn [Py.max_from Py.keys map].
  unfold Py.get_default at 1 2.
  rewrite (Hget e), (Hget x) by (simpl; auto).
  destruct (snd e <? snd x)%nat; apply IH; intros y Hy; apply Hget;
    simpl in *; tauto.
Qed.

Lemma max_key_by_get (d : Py.dict nat) :
  NoDup (Py.keys d) ->
  Py.max_key d = Py.max_by (fun k => Py.get_default d k 0) (Py.keys d).
Proof.
  intros Hnd. unfold Py.max_key. destruct d as [|e l]; [reflexivity|].
  cbn [Py.max_by Py.keys map bind]. f_equal.
  apply max_from_by_get. intros [k v] Hin. now apply get_entry.
Qed.

Lemma max_by_first {A : Type} (key : A -> nat) (x : A) (l : list A) :
  exists r pre post,
    Py.max_by key (x :: l) = Ok r
    /\ x :: l = (pre ++ r :: post)%list
    /\ Forall (fun y => key y < key r) pre
    /\ Forall (fun y => key y <= key r) post.
Proof.
  destruct (max_from_first key l [] x []) as (pre & post & Heq & Hpre & Hpost);
    try constructor.
  exists (Py.max_from key x l), pre, post. simpl in Heq. auto.
Qed.

(** What [max] finds in the values and among the keys of a [graph]. *)
Section Graph.

Variable f : string -> nat.

Local Abbreviation graph := (graph f).

Lemma graph_keys (l : list string) : Py.keys (graph l) = l.
Proof.
  unfold Py.keys, graph. rewrite map_map. simpl. apply map_id.
Qed.

Lemma graph_values (l : list string) : Py.values (graph l) = map f l.
Proof.
  unfold Py.values, graph. rewrite map_map. reflexivity.
Qed.

Lemma max_values_graph (k : string) (l : list string) :
  exists m,
    Py.max (Py.values (graph (k :: l))) = Ok m
    /\ (exists k', In k' (k :: l) /\ f k' = m)
    /\ (forall k', In k' (k :: l) -> f k' <= m).
Proof.
  rewrite graph_values. unfold Py.max. cbn [map].
  destruct (max_by_first (fun n => n) (f k) (map f l))
    as (m & pre & post & Hmax & Heq & Hpre & Hpost).
  exists m. split; [exact Hmax|].
  change (f k :: map f l) with (map f (k :: l)) in Heq.
  assert (Hall : forall n, In n (map f (k :: l)) -> n <= m).
  { intros n Hn. rewrite Heq in Hn. apply in_app_or in Hn as [Hn|[Hn|Hn]].
    - rewrite Forall_forall in Hpre. specialize (Hpre n Hn). simpl in Hpre. lia.
    - lia.
    - rewrite Forall_forall in Hpost. exact (Hpost n Hn). }
  split.
  - assert (Hm : In m (map f (k :: l))) by (rewrite Heq; apply in_elt).
    apply in_map_iff in Hm as (k' & Hk' & Hin). eauto.
  - intros k' Hk'. apply Hall. now apply in_map.
Qed.

Lemma max_key_graph (k : string) (l : list string) :
  exists r pre post,
    Py.max_key (graph (k :: l)) = Ok r
    /\ k :: l = (pre ++ r :: post)%list
    /\ (forall k', In k' pre -> f k' < f r)
    /\ (forall k', In k' post -> f k' <= f r).
Proof.
  unfold Py.max_key. cbn [graph map].
  destruct (max_by_first snd (k, f k) (map (fun k => (k, f k)) l))
    as (e & pre & post & Hmax & Heq & Hpre & Hpost).
  rewrite Hmax. cbn [bind].
  change ((k, f k) :: map (fun k => (k, f k)) l) with (graph (k :: l)) in Heq.
  unfold graph in Heq.
  apply map_eq_app in Heq as (pre' & rest & Hkl & Hpre' & Hrest).
  apply map_eq_cons in Hrest as (r & post' & Hrest & He & Hpost').
  subst e pre post rest. cbn [fst snd] in *.
  exists r, pre', post'. repeat split; auto.
  - intros k' Hk'. rewrite Forall_forall in Hpre.
    apply (Hpre (k', f k')). apply in_map_iff. eauto.
  - intros k' Hk'. rewrite Forall_forall in Hpost.
    apply (Hpost (k', f k')). apply in_map_iff. eauto.
Qed.

End Graph.

(** ** The tables *)

Lemma categories_order :
  categories = ["network"; "hardware"; "software"; "account"].
Proof. reflexivity. Qed.

Lemma suggestion_keys :
  Py.keys SUGGESTIONS = ["network"; "hardware"; "software"; "account"].
Proof. reflexivity. Qed.

(** No trigger word is listed twice for its category, so a count of list
    entries is a count of distinct words. *)
Lemma triggers_distinct (c : string) : NoDup (triggers c).
Proof.
  unfold triggers, Py.get_default, KEYWORDS. cbn [Py.get].
  repeat (match goal with
          | |- context [String.eqb c ?k] => destruct (String.eqb c k)
          end);
    repeat (constructor; [cbn [In]; intuition discriminate|]);
    constructor.
Qed.

Lemma found_triggers_distinct (t c : string) : NoDup (found_triggers t c).
Proof. apply NoDup_filter, triggers_distinct. Qed.

Lemma found_triggers_spec (t c w : string) :
  In w (found_triggers t c) <-> In w (triggers c) /\ occurs w t.
Proof.
  unfold found_triggers. now rewrite filter_In, str_in_occurs.
Qed.

Lemma trigger_count_zero (t c : string) :
  (forall w, In w (triggers c) -> ~ occurs w t) -> trigger_count t c = 0.
Proof.
  intros H. unfold trigger_count.
  destruct (found_triggers t c) as [|w l] eqn:Hf; [reflexivity|].
  exfalso. assert (Hw : In w (found_triggers t c)) by (rewrite Hf; now left).
  apply found_triggers_spec in Hw as [Hin Hocc]. exact (H w Hin Hocc).
Qed.

Lemma trigger_count_pos (t c w : string) :
  In w (triggers c) -> occurs w t -> 0 < trigger_count t c.
Proof.
  intros Hin Hocc. unfold trigger_count.
  assert (Hw : In w (found_triggers t c)) by (apply found_triggers_spec; auto).
  destruct (found_triggers t c); [contradiction | simpl; lia].
Qed.

Lemma no_trigger_sound (t : string) :
  no_trigger t = true ->
  forall c w, In c categories -> In w (triggers c) -> ~ occurs w t.
Proof.
  unfold no_trigger. rewrite forallb_forall. intros H c w Hc Hw.
  specialize (H c Hc). rewrite forallb_forall in H. specialize (H w Hw).
  apply str_in_false. now destruct (Py.str_in w t).
Qed.

Lemma no_other_trigger_sound (t c : string) :
  no_other_trigger t c = true ->
  forall c' w, In c' categories -> c' <> c -> In w (triggers c') -> ~ occurs w t.
Proof.
  unfold no_other_trigger. rewrite forallb_forall. intros H c' w Hc' Hne Hw.
  specialize (H c' Hc'). apply orb_true_iff in H as [H|H].
  - apply String.eqb_eq in H. contradiction.
  - rewrite forallb_forall in H. specialize (H w Hw).
    apply str_in_false. now destruct (Py.str_in w t).
Qed.

(** The dict [scores] holds, for every category in the order of
    [KEYWORDS], the number of its trigger words found in the text. *)
Lemma scores_of_counts (t : string) :
  App.scores_of t = graph (trigger_count t) categories.
Proof.
  unfold App.scores_of, graph, trigger_count, found_triggers, triggers, categories, KEYWORDS.
  cbn -[filter Py.sum Py.str_in]. now rewrite !sum_ones.
Qed.

(** ** The classifier *)

Section Classifier.

Variable unicode_lower : string -> string.

Local Abbreviation lower := (Py.lower unicode_lower).
Local Abbreviation rule_based_classify := (App.rule_based_classify unicode_lower).

(** With at least one trigger word in the text, the classifier returns
    the first category, in the order of [KEYWORDS], whose count is
    maximal. *)
Lemma classify_first_max (text : string) :
  (exists c, In c categories /\ 0 < trigger_count (lower text) c) ->
  exists c pre post,
    rule_based_classify text = Ok c
    /\ categories = (pre ++ c :: post)%list
    /\ (forall c', In c' pre ->
          trigger_count (lower text) c' < trigger_count (lower text) c)
    /\ (forall c', In c' post ->
          trigger_count (lower text) c' <= trigger_count (lower text) c).
Proof.
  intros (c0 & Hc0 & Hpos).
  unfold App.rule_based_classify. rewrite scores_of_counts.
  rewrite categories_order in *.
  destruct (max_values_graph (trigger_count (lower text)) "network"
              ["hardware"; "software"; "account"]) as (m & Hm & _ & Hle).
  rewrite Hm. cbn [bind].
  specialize (Hle c0 Hc0).
  destruct (Nat.ltb_spec 0 m) as [_|Hm0]; [|lia].
  apply max_key_graph.
Qed.

(** When every count is zero, the classifier returns [software]. *)
Lemma classify_zero_counts (text : string) :
  (forall c, In c categories -> trigger_count (lower text) c = 0) ->
  rule_based_classify text = Ok "software".
Proof.
  intros Hzero.
  unfold App.rule_based_classify. rewrite scores_of_counts.
  rewrite categories_order in *.
  destruct (max_values_graph (trigger_count (lower text)) "network"
              ["hardware"; "software"; "account"]) as (m & Hm & (c & Hc & Hcm) & _).
  rewrite Hm. cbn [bind].
  rewrite (Hzero c Hc) in Hcm. subst m. reflexivity.
Qed.

(** The classifier never raises and never leaves the four categories. *)
Lemma classify_total (text : string) :
  exists c, rule_based_classify text = Ok c /\ In c categories.
Proof.
  destruct (no_trigger (lower text)) eqn:Hnt.
  - exists "software". split.
    + apply classify_zero_counts. intros c Hc. apply trigger_count_zero.
      intros w Hw. now apply (no_trigger_sound _ Hnt c w).
    + rewrite categories_order. simpl. tauto.
  - destruct (classify_first_max text) as (c & pre & post & Hc & Heq & _).
    + unfold no_trigger in Hnt.
      apply not_true_iff_false in Hnt. rewrite forallb_forall in Hnt.
      destruct (existsb (fun c => Nat.ltb 0 (trigger_count (lower text) c)) categories)
        eqn:Hex.
      * apply existsb_exists in Hex as (c & Hc & Hlt).
        apply Nat.ltb_lt in Hlt. eauto.
      * exfalso. apply Hnt. intros c Hc. apply forallb_forall. intros w Hw.
        destruct (Py.str_in w (lower text)) eqn:Hin; [|reflexivity].
        apply str_in_occurs in Hin.
        pose proof (trigger_count_pos _ _ _ Hw Hin) as Hpos.
        assert (Hf : Nat.ltb 0 (trigger_count (lower text) c) = false).
        { rewrite <- not_true_iff_false. intros Ht.
          rewrite <- not_true_iff_false in Hex. apply Hex.
          apply existsb_exists. eauto. }
        apply Nat.ltb_ge in Hf. lia.
    + exists c. split; [exact Hc|]. rewrite Heq. apply in_elt.
Qed.

(** C1: the classifier lower-cases the text; the score of a category is
    the number of its distinct trigger words that occur in the lower-cased
    text as substrings; with a nonzero maximum the result is a category of
    maximal score, the first one in the order network, hardware, software,
    account (every category before it scores strictly less), and therefore
    the category of strictly highest score when there is one. *)
Theorem classify_highest_count (text : string) :
  categories = ["network"; "hardware"; "software"; "account"]
  /\ (forall c, In c categories ->
        Py.get (App.scores_of (lower text)) c
        = Some (List.length (found_triggers (lower text) c))
        /\ NoDup (found_triggers (lower text) c)
        /\ (forall w, In w (found_triggers (lower text) c)
                      <-> In w (triggers c) /\ occurs w (lower text)))
  /\ ((exists c, In c categories /\ 0 < trigger_count (lower text) c) ->
      exists c pre post,
        rule_based_classify text = Ok c
        /\ categories = (pre ++ c :: post)%list
        /\ (forall c', In c' pre ->
              trigger_count (lower text) c' < trigger_count (lower text) c)
        /\ (forall c', In c' post ->
              trigger_count (lower text) c' <= trigger_count (lower text) c)
        /\ (forall best, In best categories ->
              (forall c', In c' categories -> c' <> best ->
                 trigger_count (lower text) c' < trigger_count (lower text) best) ->
              c = best)).
Proof.
  split; [reflexivity|]. split.
  - intros c Hc. split; [|split].
    + rewrite scores_of_counts. apply get_entry.
      * rewrite graph_keys. rewrite categories_order.
        repeat (constructor; [cbn [In]; intuition discriminate|]). constructor.
      * unfold graph. apply in_map_iff. exists c. auto.
    + apply found_triggers_distinct.
    + intros w. apply found_triggers_spec.
  - intros Hsome.
    destruct (classify_first_max text Hsome) as (c & pre & post & Hc & Heq & Hpre & Hpost).
    exists c, pre, post. repeat split; auto.
    intros best Hbest Hstrict.
    destruct (string_dec c best) as [|Hne]; [assumption|exfalso].
    assert (Hcin : In c categories) by (rewrite Heq; apply in_elt).
    specialize (Hstrict c Hcin Hne).
    rewrite Heq in Hbest. apply in_app_or in Hbest as [Hb|[Hb|Hb]].
    + specialize (Hpre best Hb). lia.
    + congruence.
    + specialize (Hpost best Hb). lia.
Qed.

(** C4: a text in which no trigger word of any category occurs is
    classified as [software]. *)
Theorem classify_no_trigger (text : string)
    (Hnone : forall c w, In c categories -> In w (triggers c) ->
                         ~ occurs w (lower text)) :
  rule_based_classify text = Ok "software".
Proof.
  apply classify_zero_counts. intros c Hc.
  apply trigger_count_zero. intros w Hw.
  exact (Hnone c w Hc Hw).
Qed.

(** C7: a text whose lower-casing contains a trigger word of one category
    and no trigger word of any other category is classified as that
    category. *)
Theorem classify_single_category (text c : string)
    (Hc : In c categories)
    (Hsome : exists w, In w (triggers c) /\ occurs w (lower text))
    (Hnone : forall c' w, In c' categories -> c' <> c -> In w (triggers c') ->
                          ~ occurs w (lower text)) :
  rule_based_classify text = Ok c.
Proof.
  destruct Hsome as (w & Hw & Hocc).
  pose proof (trigger_count_pos _ _ _ Hw Hocc) as Hpos.
  destruct (classify_first_max text) as (r & pre & post & Hr & Heq & Hpre & Hpost);
    [eauto|].
  destruct (string_dec r c) as [->|Hne]; [exact Hr|exfalso].
  assert (Hrin : In r categories) by (rewrite Heq; apply in_elt).
  assert (Hzero : trigger_count (lower text) r = 0).
  { apply trigger_count_zero. intros w' Hw'. now apply (Hnone r w'). }
  rewrite Heq in Hc. apply in_app_or in Hc as [Hc|[Hc|Hc]].
  - specialize (Hpre c Hc). lia.
  - congruence.
  - specialize (Hpost c Hc). lia.
Qed.

(** C8: the classifier is case-insensitive.  [str.lower] is idempotent;
    the model computes it on ASCII text only, so for the other texts this
    enters as the hypothesis [Hidem]. *)
Theorem classify_case_insensitive
    (Hidem : forall s, lower (lower s) = lower s) :
  (forall s, rule_based_classify s = rule_based_classify (lower s))
  /\ rule_based_classify "WIFI down" = rule_based_classify "wifi down".
Proof.
  split.
  - intros s. unfold App.rule_based_classify. now rewrite Hidem.
  - reflexivity.
Qed.

End Classifier.

(** ** The advisor *)

Lemma any_map_true {A : Type} (f : A -> bool) (l : list A) :
  Py.any (map f l) = true <-> exists x, In x l /\ f x = true.
Proof.
  unfold Py.any. rewrite existsb_exists. split.
  - intros (b & Hb & Hbt). apply in_map_iff in Hb as (x & Hx & Hin).
    exists x. split; congruence.
  - intros (x & Hin & Hx). exists (f x). split; [now apply in_map | exact Hx].
Qed.

Lemma list_in_true (x : string) (l : list string) :
  Py.list_in x l = true <-> In x l.
Proof.
  unfold Py.list_in. rewrite existsb_exists. split.
  - intros (y & Hy & Heq). apply String.eqb_eq in Heq. now subst.
  - intros Hin. exists x. split; [exact Hin | apply String.eqb_refl].
Qed.

Lemma steps_lookup (category : string) :
  exists l,
    App.rule_based_steps category = Ok l
    /\ l <> []
    /\ (In category (Py.keys SUGGESTIONS) -> Py.get SUGGESTIONS category = Some l)
    /\ (~ In category (Py.keys SUGGESTIONS) ->
        Py.get SUGGESTIONS category = None
        /\ Py.get SUGGESTIONS "software" = Some l).
Proof.
  unfold App.rule_based_steps, Py.item, Py.get_default, SUGGESTIONS.
  cbn [Py.get Py.keys map fst bind String.eqb Ascii.eqb Bool.eqb In].
  repeat (match goal with
          | |- context [String.eqb category ?k] =>
              destruct (String.eqb_spec category k) as [->|?]
          end);
    eexists; (split; [reflexivity|]);
    (split; [discriminate|]);
    (split; [reflexivity || (intros; exfalso; intuition congruence)
            | intros Hnot; (exfalso; apply Hnot; tauto) || (split; reflexivity)]).
Qed.

Section Advisor.

Variable unicode_lower : string -> string.

Local Abbreviation lower := (Py.lower unicode_lower).
Local Abbreviation rule_based_escalation := (App.rule_based_escalation unicode_lower).
Local Abbreviation persistent_of := (App.persistent_of unicode_lower).

Lemma escalation_iff (text category : string) :
  rule_based_escalation text category = true
  <-> (exists p, In p App.red_flags /\ occurs p (lower text))
      \/ category = "hardware" \/ category = "account".
Proof.
  unfold App.rule_based_escalation.
  rewrite orb_true_iff, any_map_true, list_in_true. cbn [In].
  split; (intros [(p & Hp & Hin)|H];
          [left; exists p; split; [exact Hp | now apply str_in_occurs]
          |right; intuition congruence]).
Qed.

(** C2: the ticket is escalated exactly when a red-flag phrase occurs in
    the lower-cased text or the category is [hardware] or [account].  The
    persistence indicator is computed and then ignored: two texts with
    the same red flags get the same answer whatever their persistence
    words, and a text with persistence words only is not escalated. *)
Theorem escalation_decision :
  (forall text category,
      rule_based_escalation text category = true
      <-> (exists p, In p App.red_flags /\ occurs p (lower text))
          \/ category = "hardware" \/ category = "account")
  /\ (forall text text' category,
        (forall p, In p App.red_flags ->
                   (occurs p (lower text) <-> occurs p (lower text'))) ->
        rule_based_escalation text category = rule_based_escalation text' category)
  /\ (persistent_of "still down again, for weeks" = true
      /\ persistent_of "printer jam" = false
      /\ rule_based_escalation "still down again, for weeks" "network" = false
      /\ rule_based_escalation "printer jam" "network" = false).
Proof.
  split; [exact escalation_iff|]. split.
  - intros text text' category Hsame.
    apply eq_true_iff_eq. rewrite !escalation_iff.
    split; (intros [(p & Hp & Hocc)|H]; [left; exists p; split; [exact Hp|] | now right]);
      now apply (Hsame p Hp).
  - repeat split; reflexivity.
Qed.

End Advisor.

(** C6: for every category string the advisor returns a non-empty list of
    steps: the entry of [SUGGESTIONS] under that key when the key is one of
    the four of the table, the entry of [software] otherwise; a call with
    the same argument returns the same list again. *)
Theorem steps_for_every_category (category : string) :
  exists l,
    App.rule_based_steps category = Ok l
    /\ l <> []
    /\ Py.keys SUGGESTIONS = ["network"; "hardware"; "software"; "account"]
    /\ (In category (Py.keys SUGGESTIONS) -> Py.get SUGGESTIONS category = Some l)
    /\ (~ In category (Py.keys SUGGESTIONS) -> Py.get SUGGESTIONS "software" = Some l)
    /\ (forall again, again = category -> App.rule_based_steps again = Ok l).
Proof.
  destruct (steps_lookup category) as (l & Hl & Hne & Hin & Hout).
  exists l. repeat split; auto.
  - intros Hnot. now apply Hout.
  - now intros again ->.
Qed.

(** ** The orchestrator *)

Section Orchestrator.

Variable unicode_lower : string -> string.
Variable unicode_title : string -> string.
Variable unicode_strip : string -> string.
Variable repr : json -> string.
Variable json_loads : string -> exc json.
Variable chat_completion : string -> exc string.

Local Abbreviation title := (Py.title unicode_title).
Local Abbreviation rule_based_classify := (App.rule_based_classify unicode_lower).
Local Abbreviation rule_based_escalation := (App.rule_based_escalation unicode_lower).
Local Abbreviation unfenced := (App.unfenced unicode_strip).
Local Abbreviation llm_request :=
  (App.llm_request unicode_lower unicode_strip repr json_loads chat_completion).
Local Abbreviation llm_fallback := (App.llm_fallback unicode_lower unicode_title).
Local Abbreviation baseline := (App.baseline unicode_lower unicode_title).
Local Abbreviation analyze_ticket :=
  (App.analyze_ticket unicode_lower unicode_title unicode_strip repr json_loads
     chat_completion).

(** The rule-based path never raises; its result is built from the
    category that the classifier returns. *)
Lemma baseline_result (subject body : string) :
  exists c l,
    rule_based_classify (subject ++ " " ++ body) = Ok c
    /\ In c categories
    /\ App.rule_based_steps c = Ok l
    /\ l <> []
    /\ Py.get SUGGESTIONS c = Some l
    /\ baseline subject body
       = Ok {| category := c;
               steps := l;
               escalate := rule_based_escalation (subject ++ " " ++ body) c;
               summary := title c
                          ++ " issue. Applying baseline playbook. Escalate if unresolved.";
               extra := [] |}
    /\ llm_fallback subject body
       = Ok {| category := c;
               steps := l;
               escalate := rule_based_escalation (subject ++ " " ++ body) c;
               summary := title c
                          ++ " issue detected. Suggested standard troubleshooting steps applied.";
               extra := [] |}.
Proof.
  destruct (classify_total unicode_lower (subject ++ " " ++ body)) as (c & Hc & Hin).
  destruct (steps_lookup c) as (l & Hl & Hne & Hget & _).
  specialize (Hget Hin).
  exists c, l. unfold App.baseline, App.llm_fallback.
  rewrite Hc. cbn [bind]. rewrite Hl. cbn [bind]. repeat split; auto.
Qed.

(** When the [try] block raises, [llm_analyze] returns what its [except]
    branch computes. *)
Lemma llm_analyze_except (subject body : string) (e : exn) :
  llm_request subject body = Raise e ->
  analyze_ticket true subject body = llm_fallback subject body.
Proof.
  intros H. unfold App.analyze_ticket, App.llm_analyze. now rewrite H.
Qed.

Lemma summaries_differ (c : string) :
  In c categories ->
  title c ++ " issue detected. Suggested standard troubleshooting steps applied."
  <> title c ++ " issue. Applying baseline playbook. Escalate if unresolved.".
Proof.
  rewrite categories_order. cbn [In].
  intros [<-|[<-|[<-|[<-|[]]]]]; vm_compute; discriminate.
Qed.

(** C3 (amended): when the language model is enabled and its call raises
    or its reply is not JSON, the orchestrator raises nothing and returns
    the category, steps and escalation flag of the rule-based path for the
    same ticket; the summary is the sentence of the [except] branch
    ("... issue detected. Suggested standard troubleshooting steps
    applied."), which is never the summary of the rule-based path. *)
Theorem fallback_on_failure (subject body : string)
    (Hfail : (exists e, chat_completion (App.prompt_of subject body) = Raise e)
             \/ (exists content e,
                    chat_completion (App.prompt_of subject body) = Ok content
                    /\ json_loads (unfenced content) = Raise e)) :
  exists r d,
    analyze_ticket true subject body = Ok r
    /\ analyze_ticket false subject body = Ok d
    /\ category r = category d
    /\ steps r = steps d
    /\ escalate r = escalate d
    /\ extra r = extra d
    /\ summary r = title (category d)
                   ++ " issue detected. Suggested standard troubleshooting steps applied."
    /\ summary d = title (category d)
                   ++ " issue. Applying baseline playbook. Escalate if unresolved."
    /\ summary r <> summary d.
Proof.
  assert (Hraise : exists e, llm_request subject body = Raise e).
  { unfold App.llm_request.
    destruct Hfail as [(e & He)|(content & e & Hc & He)].
    - exists e. now rewrite He.
    - exists e. rewrite Hc. cbn [bind]. now rewrite He. }
  destruct Hraise as (e & He).
  destruct (baseline_result subject body)
    as (c & l & _ & Hin & _ & _ & _ & Hbase & Hfall).
  eexists; eexists.
  rewrite (llm_analyze_except subject body e He), Hfall.
  unfold App.analyze_ticket. rewrite Hbase.
  repeat split; cbn [category steps escalate summary extra].
  now apply summaries_differ.
Qed.

(** C5: the result of the rule-based path has one of the four categories,
    carries the non-empty list that [SUGGESTIONS] holds for this category,
    and its flag is [rule_based_escalation] of the combined text and this
    category. *)
Theorem baseline_invariant (subject body : string) :
  exists r,
    analyze_ticket false subject body = Ok r
    /\ In (category r) ["network"; "hardware"; "software"; "account"]
    /\ steps r <> []
    /\ Py.get SUGGESTIONS (category r) = Some (steps r)
    /\ escalate r = rule_based_escalation (subject ++ " " ++ body) (category r).
Proof.
  destruct (baseline_result subject body)
    as (c & l & _ & Hin & _ & Hne & Hget & Hbase & _).
  eexists. unfold App.analyze_ticket. rewrite Hbase.
  repeat split; cbn [category steps escalate]; auto.
Qed.

(** C9: the ticket "Wi-Fi not connecting" / "DNS fails, VPN also down" is
    a [network] ticket, is not escalated, and gets the five network
    suggestions in the order of the table. *)
Theorem wifi_ticket :
  exists r,
    analyze_ticket false "Wi-Fi not connecting" "DNS fails, VPN also down" = Ok r
    /\ category r = "network"
    /\ escalate r = false
    /\ steps r = ["Toggle Wi‑Fi adapter off/on";
                  "Forget & re‑add the SSID";
                  "Run ipconfig /flushdns (Windows) or dscacheutil -flushcache (macOS)";
                  "Test with Ethernet or mobile hotspot";
                  "Check VPN/Proxy settings"]
    /\ Py.get SUGGESTIONS "network" = Some (steps r).
Proof.
  eexists. split; [vm_compute; reflexivity|].
  repeat split.
Qed.

(** C10: on the empty ticket the rule-based path returns [software], the
    software suggestions and no escalation; it is the form, not
    [analyze_ticket], that turns an empty ticket away. *)
Theorem empty_ticket :
  (exists r,
      analyze_ticket false "" "" = Ok r
      /\ category r = "software"
      /\ Py.get SUGGESTIONS "software" = Some (steps r)
      /\ steps r = ["Reboot and retry";
                    "Clear cache/temp files";
                    "Reinstall or rollback latest update";
                    "Check logs for recent errors";
                    "Open vendor ticket if reproducible"]
      /\ escalate r = false)
  /\ forall use_llm,
       on_analyze (analyze_ticket use_llm) "" ""
       = Warning "Please enter a subject or description.".
Proof.
  split.
  - eexists. split; [vm_compute; reflexivity|]. repeat split.
  - reflexivity.
Qed.

End Orchestrator.

(** * The statements at concrete tickets *)

Lemma classify_highest_count_witness :
  (exists c, In c categories
             /\ 0 < trigger_count (Py.lower Offline.unicode_lower "Laptop WIFI") c)
  /\ exists c pre post,
       App.rule_based_classify Offline.unicode_lower "Laptop WIFI" = Ok c
       /\ categories = (pre ++ c :: post)%list
       /\ (forall c', In c' pre ->
             trigger_count (Py.lower Offline.unicode_lower "Laptop WIFI") c'
             < trigger_count (Py.lower Offline.unicode_lower "Laptop WIFI") c).
Proof.
  assert (H : exists c, In c categories
                        /\ 0 < trigger_count (Py.lower Offline.unicode_lower "Laptop WIFI") c).
  { exists "hardware". split; [right; left; reflexivity | vm_compute; constructor]. }
  split; [exact H|].
  destruct (classify_highest_count Offline.unicode_lower "Laptop WIFI")
    as (_ & _ & Hselect).
  destruct (Hselect H) as (c & pre & post & Hc & Heq & Hpre & _).
  exists c, pre, post. auto.
Defined.

Lemma classify_no_trigger_witness :
  (forall c w, In c categories -> In w (triggers c) ->
               ~ occurs w (Py.lower Offline.unicode_lower "Printer jam"))
  /\ App.rule_based_classify Offline.unicode_lower "Printer jam" = Ok "software".
Proof.
  assert (H : forall c w, In c categories -> In w (triggers c) ->
                          ~ occurs w (Py.lower Offline.unicode_lower "Printer jam")).
  { apply no_trigger_sound. vm_compute. reflexivity. }
  split; [exact H|].
  exact (classify_no_trigger Offline.unicode_lower "Printer jam" H).
Defined.

Lemma classify_single_category_witness :
  In "network" categories
  /\ (exists w, In w (triggers "network")
                /\ occurs w (Py.lower Offline.unicode_lower "WIFI down"))
  /\ (forall c' w, In c' categories -> c' <> "network" -> In w (triggers c') ->
                   ~ occurs w (Py.lower Offline.unicode_lower "WIFI down"))
  /\ App.rule_based_classify Offline.unicode_lower "WIFI down" = Ok "network".
Proof.
  assert (Hc : In "network" categories) by (left; reflexivity).
  assert (Hsome : exists w, In w (triggers "network")
                            /\ occurs w (Py.lower Offline.unicode_lower "WIFI down")).
  { exists "wifi". split; [left; reflexivity|]. exists "", " down". reflexivity. }
  assert (Hnone : forall c' w, In c' categories -> c' <> "network" ->
                               In w (triggers c') ->
                               ~ occurs w (Py.lower Offline.unicode_lower "WIFI down")).
  { apply no_other_trigger_sound. vm_compute. reflexivity. }
  split; [exact Hc|]. split; [exact Hsome|]. split; [exact Hnone|].
  exact (classify_single_category Offline.unicode_lower "WIFI down" "network"
           Hc Hsome Hnone).
Defined.

Lemma classify_case_insensitive_witness :
  (forall s, Py.lower Offline.unicode_lower (Py.lower Offline.unicode_lower s)
             = Py.lower Offline.unicode_lower s)
  /\ App.rule_based_classify Offline.unicode_lower "VPN Proxy ERROR"
     = App.rule_based_classify Offline.unicode_lower
         (Py.lower Offline.unicode_lower "VPN Proxy ERROR").
Proof.
  split; [exact offline_lower_idempotent|].
  apply (classify_case_insensitive Offline.unicode_lower offline_lower_idempotent).
Defined.

Lemma fallback_on_failure_witness :
  ((exists e, Offline.chatty (App.prompt_of "Laptop overheating" "fan noise") = Raise e)
   \/ (exists content e,
          Offline.chatty (App.prompt_of "Laptop overheating" "fan noise") = Ok content
          /\ Offline.json_loads (App.unfenced Offline.unicode_strip content) = Raise e))
  /\ exists r,
       App.analyze_ticket Offline.unicode_lower Offline.unicode_title
         Offline.unicode_strip Offline.repr Offline.json_loads Offline.chatty
         true "Laptop overheating" "fan noise" = Ok r
       /\ category r = "hardware"
       /\ escalate r = true.
Proof.
  assert (H : (exists e, Offline.chatty (App.prompt_of "Laptop overheating" "fan noise")
                         = Raise e)
              \/ (exists content e,
                     Offline.chatty (App.prompt_of "Laptop overheating" "fan noise")
                     = Ok content
                     /\ Offline.json_loads (App.unfenced Offline.unicode_strip content)
                        = Raise e)).
  { right. exists "Sorry, I cannot help.", JSONDecodeError. split; reflexivity. }
  split; [exact H|].
  destruct (fallback_on_failure Offline.unicode_lower Offline.unicode_title
              Offline.unicode_strip Offline.repr Offline.json_loads Offline.chatty
              "Laptop overheating" "fan noise" H)
    as (r & d & Hr & Hd & Hcat & _ & Hesc & _).
  exists r. split; [exact Hr|].
  vm_compute in Hd. injection Hd as <-. split; assumption.
Defined.

(** C3 as stated fails: the language model is enabled and its call raises;
    the orchestrator returns the result of the [except] branch, whose
    summary is not the summary of the rule-based path. *)
Lemma fallback_summary_counterexample :
  Offline.chat_completion (App.prompt_of "Wi-Fi not connecting" "DNS fails, VPN also down")
  = Raise ClientError
  /\ (exists r d,
        App.analyze_ticket Offline.unicode_lower Offline.unicode_title
          Offline.unicode_strip Offline.repr Offline.json_loads Offline.chat_completion
          true "Wi-Fi not connecting" "DNS fails, VPN also down" = Ok r
        /\ App.analyze_ticket Offline.unicode_lower Offline.unicode_title
             Offline.unicode_strip Offline.repr Offline.json_loads Offline.chat_completion
             false "Wi-Fi not connecting" "DNS fails, VPN also down" = Ok d
        /\ summary r
           = "Network issue detected. Suggested standard troubleshooting steps applied."
        /\ summary d
           = "Network issue. Applying baseline playbook. Escalate if unresolved.")
  /\ App.analyze_ticket Offline.unicode_lower Offline.unicode_title
       Offline.unicode_strip Offline.repr Offline.json_loads Offline.chat_completion
       true "Wi-Fi not connecting" "DNS fails, VPN also down"
     <> App.analyze_ticket Offline.unicode_lower Offline.unicode_title
          Offline.unicode_strip Offline.repr Offline.json_loads Offline.chat_completion
          false "Wi-Fi not connecting" "DNS fails, VPN also down".
Proof.
  split; [reflexivity|]. split.
  - eexists; eexists. split; [vm_compute; reflexivity|].
    split; [vm_compute; reflexivity|]. split; reflexivity.
  - vm_compute. discriminate.
Qed.

(** * Further properties *)

(** ** Strings, continued *)

Lemma append_nil_r (s : string) : s ++ "" = s.
Proof. induction s as [|c s IH]; simpl; congruence. Qed.

Lemma append_assoc (a b c : string) : (a ++ b) ++ c = a ++ b ++ c.
Proof. induction a as [|x a IH]; simpl; congruence. Qed.

Lemma append_length (a b : string) :
  String.length (a ++ b) = String.length a + String.length b.
Proof. induction a as [|x a IH]; simpl; congruence. Qed.

(** Two ways of cutting the same string: one cut is inside the left part
    of the other. *)
Lemma append_eq_append (a r x z : string) :
  a ++ r = x ++ z ->
  (exists m, x = a ++ m /\ r = m ++ z) \/ (exists m, a = x ++ m /\ z = m ++ r).
Proof.
  revert x; induction a as [|c a IH]; intros x H.
  - left. exists x. auto.
  - destruct x as [|d x].
    + right. exists (String c a). auto.
    + simpl in H. inversion H as [[Hc Hrest]].
      destruct (IH x Hrest) as [(m & -> & ->)|(m & -> & ->)].
      * left. exists m. auto.
      * right. exists m. auto.
Qed.

Lemma occurs_extend (w t before after : string) :
  occurs w t -> occurs w (before ++ t ++ after).
Proof.
  intros (x & y & ->). exists (before ++ x), (y ++ after).
  now rewrite !append_assoc.
Qed.

Lemma is_ascii_app (a b : string) :
  Py.is_ascii (a ++ b) = Py.is_ascii a && Py.is_ascii b.
Proof.
  induction a as [|c a IH]; simpl; [reflexivity|].
  now rewrite IH, andb_assoc.
Qed.

Lemma map_chars_app (f : ascii -> ascii) (a b : string) :
  Py.map_chars f (a ++ b) = Py.map_chars f a ++ Py.map_chars f b.
Proof. induction a as [|c a IH]; simpl; congruence. Qed.

(** On ASCII text [lower] goes through concatenation. *)
Lemma lower_app (unicode_lower : string -> string) (a b : string) :
  Py.is_ascii a = true -> Py.is_ascii b = true ->
  Py.lower unicode_lower (a ++ b)
  = Py.lower unicode_lower a ++ Py.lower unicode_lower b.
Proof.
  intros Ha Hb. unfold Py.lower.
  rewrite is_ascii_app, Ha, Hb. apply map_chars_app.
Qed.

Lemma lower_is_ascii (unicode_lower : string -> string) (s : string) :
  Py.is_ascii s = true -> Py.is_ascii (Py.lower unicode_lower s) = true.
Proof.
  intros Hs. unfold Py.lower. rewrite Hs. now apply map_to_lower_ascii.
Qed.

Lemma space_free_app_space (m x : string) :
  space_free (m ++ String " " x) = false.
Proof.
  induction m as [|c m IH]; simpl; [reflexivity|].
  rewrite IH. apply andb_false_r.
Qed.

(** A word without a space lies on one side of a joining space. *)
Lemma occurs_join (w a b : string) :
  space_free w = true ->
  occurs w (a ++ " " ++ b) <-> occurs w a \/ occurs w b.
Proof.
  intros Hw. split.
  - intros (x & y & H).
    apply append_eq_append in H as [(m & -> & H)|(m & -> & H)].
    + destruct m as [|c m].
      * simpl in H. destruct w as [|d w].
        -- left. exists a, "". now rewrite append_nil_r.
        -- simpl in H. inversion H; subst. simpl in Hw. discriminate.
      * simpl in H. inversion H; subst. right. exists m, y. reflexivity.
    + symmetry in H. apply append_eq_append in H as [(m' & -> & H)|(m' & -> & H)].
      * destruct m' as [|c m'].
        -- left. exists x, "". now rewrite !append_nil_r.
        -- simpl in H. inversion H; subst.
           rewrite space_free_app_space in Hw. discriminate.
      * left. exists x, m'. reflexivity.
  - intros [(x & y & ->)|(x & y & ->)].
    + exists x, (y ++ " " ++ b). now rewrite !append_assoc.
    + exists (a ++ " " ++ x), y. now rewrite !append_assoc.
Qed.

Lemma triggers_space_free (c w : string) :
  In w (triggers c) -> space_free w = true.
Proof.
  unfold triggers, Py.get_default, KEYWORDS. cbn [Py.get].
  repeat (match goal with
          | |- context [String.eqb c ?k] => destruct (String.eqb c k)
          end);
    cbn [In]; intros H;
    repeat (destruct H as [<-|H]; [reflexivity|]); contradiction.
Qed.

Lemma filter_length_le {A : Type} (f g : A -> bool) (l : list A) :
  (forall x, In x l -> f x = true -> g x = true) ->
  List.length (filter f l) <= List.length (filter g l).
Proof.
  induction l as [|x l IH]; intros H; simpl; [lia|].
  assert (IH' : List.length (filter f l) <= List.length (filter g l))
    by (apply IH; intros y Hy; apply H; now right).
  destruct (f x) eqn:Hf.
  - rewrite (H x (or_introl eq_refl) Hf). simpl. lia.
  - destruct (g x); simpl; lia.
Qed.

(** ** The rules on whole tickets *)

Section Rules.

Variable unicode_lower : string -> string.

Local Abbreviation lower := (Py.lower unicode_lower).
Local Abbreviation rule_based_classify := (App.rule_based_classify unicode_lower).
Local Abbreviation rule_based_escalation := (App.rule_based_escalation unicode_lower).

(** X12: the classifier as a decision table over the four counts: a
    category wins when its count is positive, exceeds the count of every
    category listed before it and is not exceeded by a category listed
    after it; [software] is also the answer when all counts are zero. *)
Theorem classify_decision_table (text : string) :
  let n := trigger_count (lower text) "network" in
  let h := trigger_count (lower text) "hardware" in
  let s := trigger_count (lower text) "software" in
  let a := trigger_count (lower text) "account" in
  (rule_based_classify text = Ok "network" <-> 0 < n /\ h <= n /\ s <= n /\ a <= n)
  /\ (rule_based_classify text = Ok "hardware" <-> n < h /\ s <= h /\ a <= h)
  /\ (rule_based_classify text = Ok "software"
      <-> (n = 0 /\ h = 0 /\ s = 0 /\ a = 0) \/ (n < s /\ h < s /\ a <= s))
  /\ (rule_based_classify text = Ok "account" <-> n < a /\ h < a /\ s < a).
Proof.
  intros n h s a.
  unfold App.rule_based_classify. rewrite scores_of_counts, categories_order.
  unfold graph, Py.max, Py.max_key, Py.max_by, Py.values.
  cbn [map snd fst bind Py.max_from].
  fold n h s a. clearbody n h s a.
  repeat match goal with
         | |- context [(?x <? ?y)%nat] =>
             is_var x; is_var y; destruct (Nat.ltb_spec x y)
         end;
    match goal with
    | |- context [(0 <? ?m)%nat] => destruct (Nat.ltb_spec 0 m)
    end;
    cbn [bind fst snd];
    repeat split; intros; try discriminate; try lia; try reflexivity.
Qed.

(** X8: text added around an ASCII text keeps what was found in it: no
    count of trigger words goes down, and an escalated text stays
    escalated. *)
Theorem more_text_keeps_findings (before t after : string)
    (Hbefore : Py.is_ascii before = true)
    (Ht : Py.is_ascii t = true)
    (Hafter : Py.is_ascii after = true) :
  (forall c, trigger_count (lower t) c
             <= trigger_count (lower (before ++ t ++ after)) c)
  /\ (forall category,
        rule_based_escalation t category = true ->
        rule_based_escalation (before ++ t ++ after) category = true).
Proof.
  assert (Hlow : lower (before ++ t ++ after) = lower before ++ lower t ++ lower after).
  { rewrite !lower_app; auto. rewrite is_ascii_app, Ht, Hafter. reflexivity. }
  split.
  - intros c. unfold trigger_count, found_triggers. apply filter_length_le.
    intros w _ Hw. apply str_in_occurs. apply str_in_occurs in Hw.
    rewrite Hlow. now apply occurs_extend.
  - intros category. rewrite !escalation_iff.
    intros [(p & Hp & Hocc)|H]; [left|now right].
    exists p. split; [exact Hp|]. rewrite Hlow. now apply occurs_extend.
Qed.

(** X9: no trigger word contains a space, so the trigger words found in
    an ASCII ticket are those found in its subject together with those
    found in its body: joining the two fields creates no match. *)
Theorem triggers_of_subject_and_body (subject body : string)
    (Hsubject : Py.is_ascii subject = true)
    (Hbody : Py.is_ascii body = true) :
  forall c w,
    In w (found_triggers (lower (subject ++ " " ++ body)) c)
    <-> In w (found_triggers (lower subject) c)
        \/ In w (found_triggers (lower body) c).
Proof.
  intros c w. rewrite !found_triggers_spec.
  assert (Hlow : lower (subject ++ " " ++ body) = lower subject ++ " " ++ lower body).
  { rewrite !lower_app; auto. }
  rewrite Hlow. split.
  - intros [Hin Hocc].
    apply occurs_join in Hocc; [|now apply (triggers_space_free c)].
    tauto.
  - intros [[Hin Hocc]|[Hin Hocc]]; (split; [exact Hin|]);
      (apply occurs_join; [now apply (triggers_space_free c)|]); tauto.
Qed.

(** X10: the red flags "data loss" and "admin down" contain a space, so
    they are also found across the two fields: a subject ending in the
    first word and a body starting with the second escalate the ticket. *)
Theorem red_flag_across_fields (subject_start body_rest category : string)
    (Hsubject : Py.is_ascii subject_start = true)
    (Hbody : Py.is_ascii body_rest = true) :
  rule_based_escalation
    ((subject_start ++ "data") ++ " " ++ ("loss" ++ body_rest)) category = true
  /\ rule_based_escalation
       ((subject_start ++ "admin") ++ " " ++ ("down" ++ body_rest)) category = true.
Proof.
  split; apply escalation_iff; left.
  - exists "data loss". split; [cbn; tauto|].
    replace ((subject_start ++ "data") ++ " " ++ "loss" ++ body_rest)
      with (subject_start ++ "data loss" ++ body_rest)
      by (now rewrite append_assoc).
    rewrite !lower_app; auto. exists (lower subject_start), (lower body_rest).
    reflexivity.
  - exists "admin down". split; [cbn; tauto|].
    replace ((subject_start ++ "admin") ++ " " ++ "down" ++ body_rest)
      with (subject_start ++ "admin down" ++ body_rest)
      by (now rewrite append_assoc).
    rewrite !lower_app; auto. exists (lower subject_start), (lower body_rest).
    reflexivity.
Qed.

Lemma lower_ticket_text (subject body : string) :
  Py.is_ascii subject = true -> Py.is_ascii body = true ->
  lower (lower subject ++ " " ++ lower body) = lower (subject ++ " " ++ body).
Proof.
  intros Hs Hb.
  rewrite !lower_app; auto using lower_is_ascii.
  - now rewrite !lower_ascii_idempotent.
  - rewrite is_ascii_app. now rewrite lower_is_ascii.
Qed.

End Rules.

(** ** The replies of the language model *)

Lemma suggestions_five (c : string) (l : list string) :
  Py.get SUGGESTIONS c = Some l -> List.length l = 5.
Proof.
  unfold SUGGESTIONS. cbn [Py.get].
  repeat (match goal with
          | |- context [String.eqb c ?k] => destruct (String.eqb c k)
          end);
    intros H; inversion H; reflexivity.
Qed.

Lemma get_none_not_key {V : Type} (d : Py.dict V) (k : string) :
  Py.get d k = None -> ~ In k (Py.keys d).
Proof.
  induction d as [|[k' v] d IH]; simpl; [tauto|].
  destruct (String.eqb_spec k k') as [->|Hne]; [discriminate|].
  intros H [Heq|Hin]; [congruence | now apply IH].
Qed.

Lemma chars_nil (s : string) : Py.chars s = [] -> s = "".
Proof.
  destruct s as [|c s]; [reflexivity|]. simpl.
  destruct (Py.chars s); [discriminate|]. destruct (Py.continues s); discriminate.
Qed.

Lemma concat_cons_char (c : ascii) (p : string) (ps : list string) :
  String.concat "" (String c p :: ps) = String c (String.concat "" (p :: ps)).
Proof. destruct ps; reflexivity. Qed.

(** The characters of a string, put together again, give the string. *)
Lemma chars_concat (s : string) : String.concat "" (Py.chars s) = s.
Proof.
  induction s as [|c s IH]; [reflexivity|].
  cbn [Py.chars]. destruct (Py.chars s) as [|p ps] eqn:Hch.
  - apply chars_nil in Hch. now subst.
  - destruct (Py.continues s).
    + now rewrite concat_cons_char, IH.
    + change (String.concat "" (String c "" :: p :: ps))
        with (String c (String.concat "" (p :: ps))).
      now rewrite IH.
Qed.

Lemma chars_ascii (s : string) :
  Py.is_ascii s = true ->
  Py.chars s = map (fun c => String c "") (list_ascii_of_string s).
Proof.
  induction s as [|c s IH]; [reflexivity|].
  cbn [Py.is_ascii]. rewrite andb_true_iff. intros [Hc Hs].
  cbn [Py.chars list_ascii_of_string map]. rewrite (IH Hs).
  destruct s as [|c' s]; [reflexivity|].
  cbn [list_ascii_of_string map Py.continues].
  cbn [Py.is_ascii] in Hs. apply andb_true_iff in Hs as [Hc' _].
  assert (Hcont : Py.continuation c' = false).
  { unfold Py.continuation, Py.ascii_char in *.
    apply Nat.ltb_lt in Hc'. apply andb_false_intro1. apply Nat.leb_gt. lia. }
  now rewrite Hcont.
Qed.

Section Replies.

Variable unicode_lower : string -> string.
Variable unicode_title : string -> string.
Variable unicode_strip : string -> string.
Variable repr : json -> string.
Variable json_loads : string -> exc json.
Variable chat_completion : string -> exc string.

Local Abbreviation lower := (Py.lower unicode_lower).
Local Abbreviation title := (Py.title unicode_title).
Local Abbreviation unfenced := (App.unfenced unicode_strip).
Local Abbreviation llm_request :=
  (App.llm_request unicode_lower unicode_strip repr json_loads chat_completion).
Local Abbreviation llm_fallback := (App.llm_fallback unicode_lower unicode_title).
Local Abbreviation baseline := (App.baseline unicode_lower unicode_title).
Local Abbreviation analyze_ticket :=
  (App.analyze_ticket unicode_lower unicode_title unicode_strip repr json_loads
     chat_completion).

Lemma llm_request_steps_bound (subject body : string) (r : AnalysisResult) :
  llm_request subject body = Ok r -> List.length (steps r) <= 8.
Proof.
  unfold App.llm_request.
  destruct (chat_completion (App.prompt_of subject body)) as [content|]; cbn [bind];
    [|discriminate].
  destruct (json_loads (unfenced content)) as [data|]; cbn [bind]; [|discriminate].
  destruct (as_dict data) as [d|]; cbn [bind]; [|discriminate].
  destruct (iter (Py.get_default d "steps" (JList []))) as [items|]; cbn [bind];
    [|discriminate].
  intros H. injection H as Hr. rewrite <- Hr.
  exact (firstn_le_length 8 (map (App.str repr) items)).
Qed.

(** A reply that reaches [json.loads] as an object with iterable steps is
    turned into the result field by field. *)
Lemma llm_request_object (subject body content : string) (d : Py.dict json)
    (items : list json) :
  chat_completion (App.prompt_of subject body) = Ok content ->
  json_loads (unfenced content) = Ok (JDict d) ->
  iter (Py.get_default d "steps" (JList [])) = Ok items ->
  analyze_ticket true subject body
  = Ok {| category := lower (App.str repr (Py.get_default d "category" (JStr "software")));
          steps := firstn 8 (map (App.str repr) items);
          escalate := truth (Py.get_default d "escalate" (JBool false));
          summary := Py.strip unicode_strip
                       (App.str repr (Py.get_default d "summary" (JStr "")));
          extra := filter (fun kv => negb (Py.list_in (fst kv) App.result_keys)) d |}.
Proof.
  intros Hchat Hjson Hiter.
  unfold App.analyze_ticket, App.llm_analyze, App.llm_request.
  rewrite Hchat. cbn [bind]. rewrite Hjson. cbn [bind as_dict].
  rewrite Hiter. reflexivity.
Qed.

(** Either path ends in a result. *)
Lemma analyze_returns (use_llm : bool) (subject body : string) :
  exists r, analyze_ticket use_llm subject body = Ok r.
Proof.
  destruct (baseline_result unicode_lower unicode_title subject body)
    as (c & l & _ & _ & _ & _ & _ & Hbase & Hfall).
  unfold App.analyze_ticket, App.llm_analyze. destruct use_llm.
  - destruct (llm_request subject body) as [r|e]; cbn [try_except]; eauto.
  - eauto.
Qed.

(** X1: whatever the mode, the language model and the decoder do,
    [analyze_ticket] raises nothing and returns at most eight steps, and
    exactly five without the language model. *)
Theorem analyze_never_raises (use_llm : bool) (subject body : string) :
  exists r,
    analyze_ticket use_llm subject body = Ok r
    /\ List.length (steps r) <= 8
    /\ (use_llm = false -> List.length (steps r) = 5).
Proof.
  destruct (baseline_result unicode_lower unicode_title subject body)
    as (c & l & _ & _ & _ & _ & Hget & Hbase & Hfall).
  pose proof (suggestions_five c l Hget) as Hfive.
  unfold App.analyze_ticket, App.llm_analyze. destruct use_llm.
  - destruct (llm_request subject body) as [r|e] eqn:Hreq; cbn [try_except].
    + exists r. split; [reflexivity|]. split; [|discriminate].
      now apply (llm_request_steps_bound subject body).
    + rewrite Hfall. eexists. split; [reflexivity|]. cbn [steps].
      split; [lia|discriminate].
  - rewrite Hbase. eexists. split; [reflexivity|]. cbn [steps].
    split; [lia|auto].
Qed.

(** X2: a reply that is JSON but not an object, or an object whose steps
    are null, a boolean or a number, is dropped as a whole: the result has
    the category, steps and flag of the rule-based path and the summary of
    the [except] branch. *)
Theorem unusable_reply_falls_back (subject body content : string) (data : json)
    (Hchat : chat_completion (App.prompt_of subject body) = Ok content)
    (Hjson : json_loads (unfenced content) = Ok data)
    (Hshape : (forall d, data <> JDict d)
              \/ (exists d v,
                    data = JDict d
                    /\ Py.get d "steps" = Some v
                    /\ (v = JNull \/ (exists b, v = JBool b)
                        \/ (exists n, v = JInt n) \/ (exists x, v = JFloat x)))) :
  exists r d,
    analyze_ticket true subject body = Ok r
    /\ analyze_ticket false subject body = Ok d
    /\ category r = category d
    /\ steps r = steps d
    /\ escalate r = escalate d
    /\ summary r = title (category d)
                   ++ " issue detected. Suggested standard troubleshooting steps applied.".
Proof.
  assert (Hraise : exists e, llm_request subject body = Raise e).
  { unfold App.llm_request. rewrite Hchat. cbn [bind]. rewrite Hjson. cbn [bind].
    destruct Hshape as [Hnot|(d & v & -> & Hget & Hv)].
    - destruct data; cbn [as_dict bind]; eauto. now destruct (Hnot d).
    - cbn [as_dict bind]. unfold Py.get_default. rewrite Hget.
      destruct Hv as [->|[(b & ->)|[(n & ->)|(x & ->)]]]; cbn [iter bind]; eauto. }
  destruct Hraise as (e & He).
  destruct (baseline_result unicode_lower unicode_title subject body)
    as (c & l & _ & _ & _ & _ & _ & Hbase & Hfall).
  eexists; eexists.
  rewrite (llm_analyze_except _ _ _ _ _ _ subject body e He), Hfall.
  unfold App.analyze_ticket. rewrite Hbase.
  repeat split.
Qed.

(** X3: a reply object without the keys category, steps, escalate and
    summary gives the defaults: category [software], no steps at all, no
    escalation, an empty summary; the keys it does carry are kept. *)
Theorem missing_fields_defaults (subject body content : string) (d : Py.dict json)
    (Hchat : chat_completion (App.prompt_of subject body) = Ok content)
    (Hjson : json_loads (unfenced content) = Ok (JDict d))
    (Hmissing : forall k, In k App.result_keys -> Py.get d k = None) :
  analyze_ticket true subject body
  = Ok {| category := "software";
          steps := [];
          escalate := false;
          summary := "";
          extra := d |}.
Proof.
  assert (Hget : forall k (v : json),
             In k App.result_keys -> Py.get_default d k v = v).
  { intros k v Hk. unfold Py.get_default. now rewrite (Hmissing k Hk). }
  rewrite (llm_request_object subject body content d [] Hchat Hjson);
    [|rewrite Hget by (cbn; tauto); reflexivity].
  rewrite !Hget by (cbn; tauto).
  f_equal. f_equal. apply forallb_filter_id. apply forallb_forall.
  intros [k v] Hin. cbn [fst].
  destruct (Py.list_in k App.result_keys) eqn:Hk; [exfalso|reflexivity].
  apply list_in_true in Hk.
  apply (get_none_not_key d k (Hmissing k Hk)).
  change k with (fst (k, v)). now apply in_map.
Qed.


(** X5: steps given as one string are taken apart: the result lists the
    first eight characters of the string, each as a step of its own. *)
Theorem steps_string_characters (subject body content s : string) (d : Py.dict json)
    (Hchat : chat_completion (App.prompt_of subject body) = Ok content)
    (Hjson : json_loads (unfenced content) = Ok (JDict d))
    (Hsteps : Py.get d "steps" = Some (JStr s)) :
  exists r,
    analyze_ticket true subject body = Ok r
    /\ steps r = firstn 8 (Py.chars s)
    /\ String.concat "" (Py.chars s) = s
    /\ (Py.is_ascii s = true ->
        Py.chars s = map (fun c => String c "") (list_ascii_of_string s)).
Proof.
  eexists. split.
  - apply (llm_request_object subject body content d (map JStr (Py.chars s)) Hchat Hjson).
    unfold Py.get_default. now rewrite Hsteps.
  - cbn [steps]. split; [|split].
    + rewrite map_map. cbn [App.str]. now rewrite map_id.
    + apply chars_concat.
    + apply chars_ascii.
Qed.

Lemma baseline_lower (subject body : string) :
  Py.is_ascii subject = true -> Py.is_ascii body = true ->
  baseline (lower subject) (lower body) = baseline subject body.
Proof.
  intros Hsubject Hbody.
  pose proof (lower_ticket_text unicode_lower subject body Hsubject Hbody) as Hlow.
  unfold App.baseline, App.rule_based_classify, App.rule_based_escalation.
  now rewrite Hlow.
Qed.

(** X11: the rule-based analysis of an ASCII ticket does not depend on the
    letter case of subject and body: the lower-cased ticket gets the same
    result in every field. *)
Theorem analysis_ignores_case (subject body : string)
    (Hsubject : Py.is_ascii subject = true)
    (Hbody : Py.is_ascii body = true) :
  analyze_ticket false (lower subject) (lower body)
  = analyze_ticket false subject body.
Proof.
  unfold App.analyze_ticket. now apply baseline_lower.
Qed.

(** X13: the rule-based result has exactly the four fields, and its
    summary is the sentence of its category, which names the category with
    a capital letter. *)
Theorem baseline_summary (subject body : string) :
  exists r,
    analyze_ticket false subject body = Ok r
    /\ extra r = []
    /\ In (category r, summary r) baseline_summaries.
Proof.
  destruct (baseline_result unicode_lower unicode_title subject body)
    as (c & l & _ & Hin & _ & _ & _ & Hbase & _).
  eexists. unfold App.analyze_ticket. rewrite Hbase.
  split; [reflexivity|]. split; [reflexivity|]. cbn [category summary].
  rewrite categories_order in Hin. cbn [In] in Hin.
  destruct Hin as [<-|[<-|[<-|[<-|[]]]]]; vm_compute; tauto.
Qed.

End Replies.

(** ** Code fences around the reply *)

Lemma lstrip_head (c : ascii) (s : string) :
  Py.ascii_space c = false -> Py.lstrip (String c s) = String c s.
Proof. intros H. simpl. now rewrite H. Qed.

Lemma lstrip_suffix (s : string) : exists x, s = x ++ Py.lstrip s.
Proof.
  induction s as [|c s [x IH]]; [now exists ""|].
  simpl. destruct (Py.ascii_space c).
  - exists (String c x). simpl. now rewrite <- IH.
  - now exists "".
Qed.

Lemma lstrip_fixed_head (c : ascii) (s : string) :
  Py.lstrip (String c s) = String c s -> Py.ascii_space c = false.
Proof.
  simpl. destruct (Py.ascii_space c); [|reflexivity].
  intros H. destruct (lstrip_suffix s) as [x Hx].
  apply (f_equal String.length) in Hx. rewrite append_length, H in Hx.
  simpl in Hx. lia.
Qed.

Lemma lstrip_blank_app (w s : string) :
  blank w = true -> Py.lstrip (w ++ s) = Py.lstrip s.
Proof.
  induction w as [|c w IH]; simpl; [reflexivity|].
  rewrite andb_true_iff. intros [Hc Hw]. rewrite Hc. auto.
Qed.

Lemma rstrip_prefix (s : string) : exists x, s = Py.rstrip s ++ x.
Proof.
  induction s as [|c s [x IH]]; [now exists ""|].
  simpl. destruct (Py.rstrip s) as [|d r].
  - destruct (Py.ascii_space c).
    + now exists (String c s).
    + exists s. reflexivity.
  - exists x. simpl in *. now rewrite <- IH.
Qed.

Lemma rstrip_blank (w : string) : blank w = true -> Py.rstrip w = "".
Proof.
  induction w as [|c w IH]; simpl; [reflexivity|].
  rewrite andb_true_iff. intros [Hc Hw]. now rewrite (IH Hw), Hc.
Qed.

Lemma rstrip_app_blank (a b : string) :
  Py.rstrip b = "" -> Py.rstrip (a ++ b) = Py.rstrip a.
Proof.
  intros Hb. induction a as [|c a IH]; simpl; [exact Hb|]. now rewrite IH.
Qed.

Lemma rstrip_app_keep (a b : string) :
  Py.rstrip b <> "" -> Py.rstrip (a ++ b) = a ++ Py.rstrip b.
Proof.
  intros Hb. induction a as [|c a IH]; simpl; [reflexivity|].
  rewrite IH. destruct (a ++ Py.rstrip b) eqn:Hab; [|reflexivity].
  destruct a; simpl in Hab; [contradiction|discriminate].
Qed.

Lemma space_not_backtick (c : ascii) :
  Py.ascii_space c = true -> Ascii.eqb c backtick = false.
Proof.
  intros Hc. destruct (Ascii.eqb_spec c backtick) as [->|]; [|reflexivity].
  discriminate Hc.
Qed.

Lemma space_is_ascii (c : ascii) :
  Py.ascii_space c = true -> Py.ascii_char c = true.
Proof.
  unfold Py.ascii_space, Py.ascii_char. cbv zeta.
  rewrite orb_true_iff, !andb_true_iff, !Nat.leb_le, Nat.ltb_lt. lia.
Qed.

Lemma blank_tick_free (w : string) : blank w = true -> tick_free w = true.
Proof.
  induction w as [|c w IH]; simpl; [reflexivity|].
  rewrite andb_true_iff. intros [Hc Hw].
  now rewrite (space_not_backtick c Hc), (IH Hw).
Qed.

Lemma blank_is_ascii (w : string) : blank w = true -> Py.is_ascii w = true.
Proof.
  induction w as [|c w IH]; simpl; [reflexivity|].
  rewrite andb_true_iff. intros [Hc Hw].
  now rewrite (space_is_ascii c Hc), (IH Hw).
Qed.

Lemma tick_free_app (a b : string) :
  tick_free (a ++ b) = tick_free a && tick_free b.
Proof.
  induction a as [|c a IH]; simpl; [reflexivity|].
  now rewrite IH, andb_assoc.
Qed.

(** While [skip] characters of an occurrence are left, they are dropped. *)
Lemma replace_from_skip (old new x s : string) :
  Py.replace_from old new (String.length x) (x ++ s) = Py.replace_from old new 0 s.
Proof. induction x as [|c x IH]; simpl; [reflexivity | exact IH]. Qed.

Lemma replace_from_occurrence (c : ascii) (old new s : string) :
  Py.replace_from (String c old) new 0 (String c old ++ s)
  = new ++ Py.replace_from (String c old) new 0 s.
Proof.
  assert (Hp : String.prefix (String c old) (String c old ++ s) = true)
    by (apply prefix_iff; eauto).
  change (String c old ++ s) with (String c (old ++ s)) in *.
  cbn [Py.replace_from]. rewrite Hp. f_equal.
  replace (String.length (String c old) - 1) with (String.length old)
    by (simpl; lia).
  apply replace_from_skip.
Qed.

(** Text without a backtick holds no occurrence of a fence. *)
Lemma replace_from_tick_free (old new a b : string) :
  tick_free a = true ->
  Py.replace_from (String backtick old) new 0 (a ++ b)
  = a ++ Py.replace_from (String backtick old) new 0 b.
Proof.
  induction a as [|c a IH]; [reflexivity|].
  cbn [tick_free]. rewrite andb_true_iff, negb_true_iff. intros [Hc Ha].
  change (String c a ++ b) with (String c (a ++ b)).
  cbn [Py.replace_from].
  destruct (String.prefix (String backtick old) (String c (a ++ b))) eqn:Hp.
  - apply prefix_iff in Hp as [x Hx]. simpl in Hx. inversion Hx; subst.
    now rewrite Ascii.eqb_refl in Hc.
  - simpl. now rewrite (IH Ha).
Qed.

Lemma fence_prefix_ticks (s : string) :
  String.prefix "```" s = true <-> 3 <= ticks s.
Proof.
  split.
  - intros H. apply prefix_iff in H as [x ->]. simpl. lia.
  - intros H.
    destruct s as [|c1 [|c2 [|c3 s]]]; simpl in H;
      repeat match type of H with
             | context [Ascii.eqb ?c backtick] =>
                 destruct (Ascii.eqb_spec c backtick); [subst|]
             end; try lia.
    apply prefix_iff. now exists s.
Qed.

(** What [replace("```", "")] leaves has fewer than three backticks in a
    row, at its head and everywhere else. *)
Lemma replace_fence_ticks (n : nat) :
  forall s, String.length s <= n ->
    ticks (Py.replace_from "```" "" 0 s) <= ticks s
    /\ ticks (Py.replace_from "```" "" 0 s) <= 2
    /\ Py.str_in "```" (Py.replace_from "```" "" 0 s) = false.
Proof.
  induction n as [|n IH]; intros s Hlen.
  - destruct s; [|simpl in Hlen; lia]. repeat split; simpl; lia.
  - destruct s as [|c s]; [repeat split; simpl; lia|].
    destruct (String.prefix "```" (String c s)) eqn:Hp.
    + apply prefix_iff in Hp as [x Hx]. rewrite Hx.
      rewrite (replace_from_occurrence "`" "``" "" x).
      change ("" ++ Py.replace_from "```" "" 0 x) with (Py.replace_from "```" "" 0 x).
      destruct (IH x) as (H1 & H2 & H3).
      * apply (f_equal String.length) in Hx. rewrite append_length in Hx.
        simpl in Hx, Hlen. lia.
      * repeat split; auto. simpl. lia.
    + assert (Hticks : ticks (String c s) <= 2).
      { destruct (le_lt_dec 3 (ticks (String c s))) as [H3|]; [|lia].
        apply fence_prefix_ticks in H3. congruence. }
      cbn [Py.replace_from]. rewrite Hp.
      destruct (IH s) as (H1 & H2 & H3); [simpl in Hlen; lia|].
      assert (Hhead : ticks (String c (Py.replace_from "```" "" 0 s))
                      <= ticks (String c s)).
      { cbn [ticks]. destruct (Ascii.eqb c backtick); lia. }
      repeat split; [exact Hhead | lia |].
      rewrite str_in_unfold.
      destruct (String.prefix "```" (String c (Py.replace_from "```" "" 0 s))) eqn:Hp';
        [|exact H3].
      apply fence_prefix_ticks in Hp'. lia.
Qed.

Lemma is_ascii_lstrip (s : string) :
  Py.is_ascii s = true -> Py.is_ascii (Py.lstrip s) = true.
Proof.
  intros H. destruct (lstrip_suffix s) as [x Hx].
  rewrite Hx, is_ascii_app in H. now apply andb_true_iff in H.
Qed.

Lemma is_ascii_rstrip (s : string) :
  Py.is_ascii s = true -> Py.is_ascii (Py.rstrip s) = true.
Proof.
  intros H. destruct (rstrip_prefix s) as [x Hx].
  rewrite Hx, is_ascii_app in H. now apply andb_true_iff in H.
Qed.

Lemma is_ascii_replace_from (old : string) (s : string) :
  forall skip, Py.is_ascii s = true ->
               Py.is_ascii (Py.replace_from old "" skip s) = true.
Proof.
  induction s as [|c s IH]; intros skip; [reflexivity|].
  cbn [Py.is_ascii Py.replace_from]. rewrite andb_true_iff. intros [Hc Hs].
  destruct skip; [|now apply IH].
  destruct (String.prefix old (String c s)).
  - cbn [append]. now apply IH.
  - cbn [Py.is_ascii]. now rewrite Hc, IH.
Qed.

Lemma occurs_lstrip (w s : string) : occurs w (Py.lstrip s) -> occurs w s.
Proof.
  intros H. destruct (lstrip_suffix s) as [x Hx]. rewrite Hx.
  rewrite <- (append_nil_r (Py.lstrip s)). now apply occurs_extend.
Qed.

Lemma occurs_rstrip (w s : string) : occurs w (Py.rstrip s) -> occurs w s.
Proof.
  intros H. destruct (rstrip_prefix s) as [x Hx]. rewrite Hx.
  change (Py.rstrip s ++ x) with ("" ++ Py.rstrip s ++ x). now apply occurs_extend.
Qed.

Section Fences.

Variable unicode_strip : string -> string.

Local Abbreviation strip := (Py.strip unicode_strip).
Local Abbreviation unfenced := (App.unfenced unicode_strip).

Lemma strip_ascii (s : string) :
  Py.is_ascii s = true -> strip s = Py.rstrip (Py.lstrip s).
Proof. intros H. unfold Py.strip. now rewrite H. Qed.

(** X6: a reply that wraps an ASCII payload without backticks in a
    [```json] ... [```] fence, with any whitespace between fence and
    payload, reaches [json.loads] as the bare payload. *)
Theorem unfenced_json_fence (before payload after : string)
    (Hbefore : blank before = true)
    (Hafter : blank after = true)
    (Hascii : Py.is_ascii payload = true)
    (Hticks : tick_free payload = true)
    (Hleft : Py.lstrip payload = payload)
    (Hright : Py.rstrip payload = payload) :
  unfenced (fenced before payload after) = payload.
Proof.
  pose proof (blank_is_ascii _ Hbefore) as Hab.
  pose proof (blank_is_ascii _ Hafter) as Haa.
  assert (Hinner_ascii : Py.is_ascii (before ++ payload ++ after) = true)
    by (now rewrite !is_ascii_app, Hab, Hascii, Haa).
  assert (Hinner_ticks : tick_free (before ++ payload ++ after) = true)
    by (now rewrite !tick_free_app, (blank_tick_free _ Hbefore), Hticks,
          (blank_tick_free _ Hafter)).
  assert (Hshape : fenced before payload after
                   = "```json" ++ (before ++ payload ++ after) ++ "```")
    by (unfold fenced; now rewrite !append_assoc).
  unfold App.unfenced. rewrite Hshape.
  (* the first strip changes nothing *)
  rewrite (strip_ascii ("```json" ++ (before ++ payload ++ after) ++ "```"))
    by (now rewrite (is_ascii_app "```json"),
          (is_ascii_app (before ++ payload ++ after)), Hinner_ascii).
  change ("```json" ++ (before ++ payload ++ after) ++ "```")
    with (String "`" ("``json" ++ (before ++ payload ++ after) ++ "```")) at 1.
  rewrite lstrip_head by reflexivity.
  change (String "`" ("``json" ++ (before ++ payload ++ after) ++ "```"))
    with ("```json" ++ (before ++ payload ++ after) ++ "```").
  rewrite <- (append_assoc "```json" (before ++ payload ++ after) "```").
  rewrite rstrip_app_keep by discriminate.
  change (Py.rstrip "```") with "```".
  rewrite (append_assoc "```json" (before ++ payload ++ after) "```").
  (* the two replacements remove the fences *)
  unfold Py.replace.
  rewrite (replace_from_occurrence "`" "``json" "").
  change ("" ++ ?x) with x.
  pose proof (replace_from_tick_free "``json" "" _ "```" Hinner_ticks) as Hfirst.
  change (String backtick "``json") with "```json" in Hfirst.
  rewrite Hfirst.
  change (Py.replace_from "```json" "" 0 "```") with "```".
  pose proof (replace_from_tick_free "``" "" _ "```" Hinner_ticks) as Hsecond.
  change (String backtick "``") with "```" in Hsecond.
  rewrite Hsecond.
  change (Py.replace_from "```" "" 0 "```") with "".
  rewrite append_nil_r.
  (* the second strip removes the whitespace around the payload *)
  rewrite strip_ascii by exact Hinner_ascii.
  rewrite lstrip_blank_app by exact Hbefore.
  destruct payload as [|c p].
  - cbn [append].
    assert (Hl : blank (Py.lstrip after) = true).
    { clear - Hafter. induction after as [|c a IH]; [reflexivity|].
      simpl in *. apply andb_true_iff in Hafter as [Hc Ha]. rewrite Hc. auto. }
    now apply rstrip_blank.
  - change (String c p ++ after) with (String c (p ++ after)).
    rewrite lstrip_head by (now apply (lstrip_fixed_head c p)).
    change (String c (p ++ after)) with (String c p ++ after).
    rewrite rstrip_app_blank by (now apply rstrip_blank).
    exact Hright.
Qed.

(** X7: whatever ASCII text the language model replies, the text handed
    to [json.loads] contains no fence of three backticks. *)
Theorem unfenced_no_fence (content : string)
    (Hascii : Py.is_ascii content = true) :
  ~ occurs "```" (unfenced content).
Proof.
  unfold App.unfenced, Py.replace.
  rewrite (strip_ascii content Hascii).
  set (inner := Py.replace_from "```json" "" 0 (Py.rstrip (Py.lstrip content))).
  assert (Hinner : Py.is_ascii inner = true)
    by (apply is_ascii_replace_from; now apply is_ascii_rstrip, is_ascii_lstrip).
  rewrite strip_ascii by (now apply is_ascii_replace_from).
  intros Hocc. apply occurs_rstrip, occurs_lstrip in Hocc.
  apply str_in_occurs in Hocc.
  destruct (replace_fence_ticks (String.length inner) inner (le_n _)) as (_ & _ & Hnone).
  congruence.
Qed.

End Fences.

(** ** The form *)

(** X14: the single-ticket form warns exactly when subject and body are
    both empty; every other form, one of blanks only included, is analysed,
    and the analysis shown is a result, never an exception. *)
Theorem form_never_fails
    (unicode_lower unicode_title unicode_strip : string -> string)
    (repr : json -> string) (json_loads : string -> exc json)
    (chat_completion : string -> exc string) (use_llm : bool)
    (subject body : string) :
  (subject = "" /\ body = ""
   /\ on_analyze
        (App.analyze_ticket unicode_lower unicode_title unicode_strip repr
           json_loads chat_completion use_llm) subject body
      = Warning "Please enter a subject or description.")
  \/ ((subject <> "" \/ body <> "")
      /\ exists r,
           on_analyze
             (App.analyze_ticket unicode_lower unicode_title unicode_strip repr
                json_loads chat_completion use_llm) subject body
           = Result (Ok r)).
Proof.
  unfold on_analyze.
  destruct (String.eqb_spec subject "") as [->|Hs];
    [destruct (String.eqb_spec body "") as [->|Hb]|]; cbn [andb].
  - left. auto.
  - right. split; [now right|].
    destruct (analyze_returns unicode_lower unicode_title unicode_strip repr
                json_loads chat_completion use_llm "" body) as (r & Hr).
    exists r. now rewrite Hr.
  - right. split; [now left|].
    destruct (analyze_returns unicode_lower unicode_title unicode_strip repr
                json_loads chat_completion use_llm subject body) as (r & Hr).
    exists r. now rewrite Hr.
Qed.

(** * The further statements at concrete tickets and replies *)

Lemma more_text_keeps_findings_witness :
  Py.is_ascii "Hi, there is an " = true
  /\ Py.is_ascii "Outage" = true
  /\ Py.is_ascii " since Monday" = true
  /\ App.rule_based_escalation Offline.unicode_lower
       ("Hi, there is an " ++ "Outage" ++ " since Monday") "network" = true.
Proof.
  repeat (split; [reflexivity|]).
  apply (proj2 (more_text_keeps_findings Offline.unicode_lower
                  "Hi, there is an " "Outage" " since Monday"
                  eq_refl eq_refl eq_refl)).
  reflexivity.
Defined.

Lemma triggers_of_subject_and_body_witness :
  Py.is_ascii "VPN" = true
  /\ Py.is_ascii "drops" = true
  /\ (In "vpn" (found_triggers (Py.lower Offline.unicode_lower ("VPN" ++ " " ++ "drops"))
                  "network")
      <-> In "vpn" (found_triggers (Py.lower Offline.unicode_lower "VPN") "network")
          \/ In "vpn" (found_triggers (Py.lower Offline.unicode_lower "drops") "network")).
Proof.
  repeat (split; [reflexivity|]).
  exact (triggers_of_subject_and_body Offline.unicode_lower "VPN" "drops"
           eq_refl eq_refl "network" "vpn").
Defined.

Lemma red_flag_across_fields_witness :
  Py.is_ascii "Restore of " = true
  /\ Py.is_ascii " is what we fear" = true
  /\ App.rule_based_escalation Offline.unicode_lower
       (("Restore of " ++ "data") ++ " " ++ ("loss" ++ " is what we fear"))
       "software" = true.
Proof.
  repeat (split; [reflexivity|]).
  exact (proj1 (red_flag_across_fields Offline.unicode_lower
                  "Restore of " " is what we fear" "software" eq_refl eq_refl)).
Defined.

Lemma analysis_ignores_case_witness :
  Py.is_ascii "LOGIN Failed" = true
  /\ Py.is_ascii "Account LOCKED" = true
  /\ App.analyze_ticket Offline.unicode_lower Offline.unicode_title
       Offline.unicode_strip Offline.repr Offline.json_loads Offline.chat_completion
       false (Py.lower Offline.unicode_lower "LOGIN Failed")
       (Py.lower Offline.unicode_lower "Account LOCKED")
     = App.analyze_ticket Offline.unicode_lower Offline.unicode_title
         Offline.unicode_strip Offline.repr Offline.json_loads Offline.chat_completion
         false "LOGIN Failed" "Account LOCKED".
Proof.
  repeat (split; [reflexivity|]).
  exact (analysis_ignores_case Offline.unicode_lower Offline.unicode_title
           Offline.unicode_strip Offline.repr Offline.json_loads
           Offline.chat_completion "LOGIN Failed" "Account LOCKED" eq_refl eq_refl).
Defined.

Lemma unusable_reply_falls_back_witness :
  exists r,
    App.analyze_ticket Offline.unicode_lower Offline.unicode_title
      Offline.unicode_strip Offline.repr
      (fun _ => Ok (JList [JStr "Reboot"])) (fun _ => Ok "[1]")
      true "Mouse" "stuck" = Ok r
    /\ summary r
       = Py.title Offline.unicode_title (category r)
         ++ " issue detected. Suggested standard troubleshooting steps applied.".
Proof.
  destruct (unusable_reply_falls_back Offline.unicode_lower Offline.unicode_title
              Offline.unicode_strip Offline.repr
              (fun _ => Ok (JList [JStr "Reboot"])) (fun _ => Ok "[1]")
              "Mouse" "stuck" "[1]" (JList [JStr "Reboot"]) eq_refl eq_refl
              (or_introl (fun d (H : JList [JStr "Reboot"] = JDict d) =>
                            match H in _ = v
                                  return match v with JDict _ => False | _ => True end
                            with eq_refl => I end)))
    as (r & d & Hr & _ & Hcat & _ & _ & Hsum).
  exists r. split; [exact Hr|]. now rewrite Hcat.
Defined.

Lemma missing_fields_defaults_witness :
  (forall k, In k App.result_keys -> Py.get [("confidence", JInt 1)] k = None)
  /\ App.analyze_ticket Offline.unicode_lower Offline.unicode_title
       Offline.unicode_strip Offline.repr
       (fun _ => Ok (JDict [("confidence", JInt 1)])) (fun _ => Ok "{}")
       true "Mouse" "stuck"
     = Ok {| category := "software"; steps := []; escalate := false; summary := "";
             extra := [("confidence", JInt 1)] |}.
Proof.
  assert (H : forall k, In k App.result_keys ->
                        Py.get [("confidence", JInt 1)] k = None).
  { intros k [<-|[<-|[<-|[<-|[]]]]]; reflexivity. }
  split; [exact H|].
  exact (missing_fields_defaults Offline.unicode_lower Offline.unicode_title
           Offline.unicode_strip Offline.repr
           (fun _ => Ok (JDict [("confidence", JInt 1)])) (fun _ => Ok "{}")
           "Mouse" "stuck" "{}" [("confidence", JInt 1)] eq_refl eq_refl H).
Defined.


Lemma steps_string_characters_witness :
  exists r,
    App.analyze_ticket Offline.unicode_lower Offline.unicode_title
      Offline.unicode_strip Offline.repr
      (fun _ => Ok (JDict [("steps", JStr "Reboot the laptop")])) (fun _ => Ok "{}")
      true "Mouse" "stuck" = Ok r
    /\ steps r = ["R"; "e"; "b"; "o"; "o"; "t"; " "; "t"].
Proof.
  destruct (steps_string_characters Offline.unicode_lower Offline.unicode_title
              Offline.unicode_strip Offline.repr
              (fun _ => Ok (JDict [("steps", JStr "Reboot the laptop")]))
              (fun _ => Ok "{}")
              "Mouse" "stuck" "{}" "Reboot the laptop"
              [("steps", JStr "Reboot the laptop")] eq_refl eq_refl eq_refl)
    as (r & Hr & Hsteps & _).
  exists r. split; [exact Hr|]. rewrite Hsteps. reflexivity.
Defined.

Lemma unfenced_json_fence_witness :
  blank Py.nl = true
  /\ Py.is_ascii "{}" = true
  /\ tick_free "{}" = true
  /\ Py.lstrip "{}" = "{}"
  /\ Py.rstrip "{}" = "{}"
  /\ App.unfenced Offline.unicode_strip (fenced Py.nl "{}" Py.nl) = "{}".
Proof.
  repeat (split; [reflexivity|]).
  exact (unfenced_json_fence Offline.unicode_strip Py.nl "{}" Py.nl
           eq_refl eq_refl eq_refl eq_refl eq_refl eq_refl).
Defined.

Lemma unfenced_no_fence_witness :
  Py.is_ascii "`````json`{}````" = true
  /\ ~ occurs "```" (App.unfenced Offline.unicode_strip "`````json`{}````").
Proof.
  split; [reflexivity|].
  exact (unfenced_no_fence Offline.unicode_strip "`````json`{}````" eq_refl).
Defined.
